(** * Display_Logic.h of the ESP32 CYD Othello game: touch calibration
      life cycle, key pad registry and UI mode flags.

    The C++ translation unit is embedded shallowly.  Calls into LittleFS,
    the LovyanGFX display object [tft] and [Serial] are effects: they are
    threaded through a small monad that carries the flash file system, the
    table of open file handles and the calibration of the touch panel as
    state, takes the answers of the hardware (failed opens and removes,
    short reads and writes, the coefficients produced by the user's
    touches) from a read-only environment, and records every call in a
    trace. *)

From Stdlib Require Import ZArith Lia List String Bool.
From Stdlib.Strings Require Import Byte.
From stdpp Require Import base gmap strings list.

Local Open Scope Z_scope.

(* ------------------------------------------------------------------ *)
(** ** Machine data *)

(** [uint8_t] and [uint16_t] values are integers with the wrap-around
    written out. *)
Definition to_uint8 (z : Z) : Z := z mod 256.
Definition to_uint16 (z : Z) : Z := z mod 65536.

(** [int16_t], the type of the coordinates taken by [initButton]. *)
Definition to_int16 (z : Z) : Z := (z + 32768) mod 65536 - 32768.

Definition byte_to_Z (b : byte) : Z := Z.of_N (Byte.to_N b).

Definition byte_of_Z (z : Z) : byte :=
  match Byte.of_N (Z.to_N (z mod 256)) with
  | Some b => b
  | None => x00
  end.

(** The ESP32 is little endian: a [uint16_t] occupies two bytes, low byte
    first. *)
Definition u16_of_bytes (lo hi : byte) : Z :=
  Z.lor (byte_to_Z lo) (Z.shiftl (byte_to_Z hi) 8).

Definition bytes_of_u16 (z : Z) : list byte :=
  [byte_of_Z z; byte_of_Z (Z.shiftr (to_uint16 z) 8)].

(** The [uint16_t] view of a byte buffer, as used by the casts
    [(char * )calData] and [(const unsigned char * )calData]. *)
Fixpoint words_of_bytes (buf : list byte) : list Z :=
  match buf with
  | lo :: hi :: rest => u16_of_bytes lo hi :: words_of_bytes rest
  | _ => []
  end.

Definition bytes_of_words (ws : list Z) : list byte :=
  flat_map bytes_of_u16 ws.

(* ------------------------------------------------------------------ *)
(** ** Constants of the translation unit *)

Definition CALIBRATION_FILE : string := "/CalDatLovyLfsSt7789".

(** [REPEAT_CAL] as shipped.  The calibration routine below takes the flag
    as an argument, since it is a build-time switch. *)
Definition REPEAT_CAL : bool := false.

Definition KEY_X : Z := 15.
Definition KEY_Y : Z := 15.
Definition KEY_W : Z := 25.
Definition KEY_H : Z := 25.
Definition KEY_SPACING_X : Z := 5.
Definition KEY_SPACING_Y : Z := 5.

Definition NUMBER_OF_KEYS : Z := 64.

Definition SCREEN_WIDTH : Z := 240.
Definition GAME_MODE_1_Y : Z := 80.
Definition GAME_MODE_2_Y : Z := 140.
Definition GAME_MODE_21_X : Z := 60.
Definition GAME_MODE_22_X : Z := 180.
Definition GAME_MODE_W : Z := 110.
Definition GAME_MODE_H : Z := 40.

(** The colour constants come from the LovyanGFX headers, which are not
    part of this translation unit: they are a parameter of the model. *)
Class LGFX_colors := {
  TFT_BLACK : Z;
  TFT_WHITE : Z;
  TFT_RED : Z;
  TFT_GREEN : Z;
  TFT_BLUE : Z;
  TFT_MAGENTA : Z;
  TFT_DARKGREY : Z
}.

(* ------------------------------------------------------------------ *)
(** ** The outside world *)

(** A [File] object converts to [false] when the open failed. *)
Definition File := option nat.

(** The fields [initButton] stores in an [LGFX_Button]. *)
Record LGFX_Button := {
  btn_x : Z;
  btn_y : Z;
  btn_w : Z;
  btn_h : Z;
  btn_outline : Z;
  btn_fill : Z;
  btn_textcolor : Z;
  btn_label : string;
  btn_textsize : Z
}.

(** The array element a button method is called on. *)
Inductive ButtonRef :=
| Key_ref (i : Z)          (* key[i] *)
| ModeButton_ref (i : Z).  (* modeButton[i] *)

(** Every call that leaves the translation unit. *)
Inductive Event :=
| EvSerialPrintf (fmt : string) (args : list Z)
| EvSerialPrintln (s : string)
| EvExists (path : string) (r : bool)
| EvRemove (path : string)
| EvOpen (path mode : string) (f : File)
| EvReadBytes (fd : nat) (n : Z) (got : list byte)
| EvWrite (fd : nat) (data : list byte)
| EvClose (fd : nat)
| EvSetTouchCalibrate (cal : list Z)
| EvCalibrateTouch (cal : list Z) (fg bg size : Z)
| EvFillScreen (c : Z)
| EvSetCursor (x y : Z)
| EvSetTextFont (n : Z)
| EvSetTextSize (n : Z)
| EvSetTextColor (fg bg : Z)
| EvPrintln (s : string)
| EvSetFont (font : string)
| EvDrawCentreString (s : string) (x y : Z)
| EvDrawButton (obj : ButtonRef) (b : LGFX_Button).

(** What the hardware answers.  Every storage call can fail: an open may
    yield no handle, a read may return fewer bytes than asked for (the code
    tests both), a remove may leave the file in place and a write may store
    fewer bytes than it was handed (the code discards both results). *)
Record Env := {
  stack_junk : nat -> byte;   (* content of the uninitialised local array *)
  open_r_ok : bool;           (* open(..., "r") yields a usable handle *)
  read_avail : nat;           (* bytes the flash delivers before giving up *)
  remove_ok : bool;           (* remove(...) deletes the file *)
  open_w_ok : bool;           (* open(..., "w") yields a usable handle *)
  write_avail : nat;          (* bytes the flash stores before giving up *)
  touch_coeff : nat -> Z      (* coefficients derived from the user's touches *)
}.

(** The flash file system, the table of open handles, and the
    coefficients in force in the touch panel, if any. *)
Record World := {
  fs : gmap string (list byte);
  handles : gmap nat string;
  panel_cal : option (list Z)
}.

Definition set_fs (w : World) (f : gmap string (list byte)) : World :=
  {| fs := f; handles := handles w; panel_cal := panel_cal w |}.

Definition set_handles (w : World) (h : gmap nat string) : World :=
  {| fs := fs w; handles := h; panel_cal := panel_cal w |}.

Definition set_panel_cal (w : World) (c : option (list Z)) : World :=
  {| fs := fs w; handles := handles w; panel_cal := c |}.

Record Result (A : Type) := {
  value : A;
  world : World;
  trace : list Event
}.
Arguments value {A} _.
Arguments world {A} _.
Arguments trace {A} _.

Definition M (A : Type) : Type := Env -> World -> Result A.

Definition ret {A} (a : A) : M A :=
  fun _ w => {| value := a; world := w; trace := [] |}.

Definition bind {A B} (m : M A) (k : A -> M B) : M B :=
  fun e w =>
    let r1 := m e w in
    let r2 := k (value r1) e (world r1) in
    {| value := value r2; world := world r2; trace := trace r1 ++ trace r2 |}.

Declare Scope io_scope.
Delimit Scope io_scope with io.
Notation "x <- c1 ;; c2" := (bind c1 (fun x => c2))
  (at level 100, c1 at next level, right associativity) : io_scope.
Notation "c1 ;; c2" := (bind c1 (fun _ => c2))
  (at level 100, right associativity) : io_scope.
Local Open Scope io_scope.

Definition emit (ev : Event) : M unit :=
  fun _ w => {| value := tt; world := w; trace := [ev] |}.

Definition ask : M Env :=
  fun e w => {| value := e; world := w; trace := [] |}.

Definition get : M World :=
  fun _ w => {| value := w; world := w; trace := [] |}.

Definition put (w : World) : M unit :=
  fun _ _ => {| value := tt; world := w; trace := [] |}.

(** *** LittleFS *)

Definition LittleFS_exists (path : string) : M bool :=
  w <- get ;;
  let r := bool_decide (is_Some (fs w !! path)) in
  emit (EvExists path r) ;;
  ret r.

(** [remove] deletes the file and returns [true], or fails, leaves the
    file system alone and returns [false]. *)
Definition LittleFS_remove (path : string) : M bool :=
  e <- ask ;;
  w <- get ;;
  let done := remove_ok e && bool_decide (is_Some (fs w !! path)) in
  put (if done then set_fs w (delete path (fs w)) else w) ;;
  emit (EvRemove path) ;;
  ret done.

(** Mode ["r"] needs an existing file; mode ["w"] creates the file or
    empties it.  A handle is a number not in use. *)
Definition LittleFS_open (path mode : string) : M File :=
  e <- ask ;;
  w <- get ;;
  let fd := fresh (dom (handles w)) in
  if String.eqb mode "r" then
    if open_r_ok e && bool_decide (is_Some (fs w !! path)) then
      put (set_handles w (<[fd := path]> (handles w))) ;;
      emit (EvOpen path mode (Some fd)) ;;
      ret (Some fd)
    else
      emit (EvOpen path mode None) ;;
      ret None
  else if String.eqb mode "w" then
    if open_w_ok e then
      put (set_handles (set_fs w (<[path := []]> (fs w)))
                       (<[fd := path]> (handles w))) ;;
      emit (EvOpen path mode (Some fd)) ;;
      ret (Some fd)
    else
      emit (EvOpen path mode None) ;;
      ret None
  else
    emit (EvOpen path mode None) ;;
    ret None.

(** The content behind a handle. *)
Definition file_content (w : World) (fd : nat) : list byte :=
  match handles w !! fd with
  | Some path => default [] (fs w !! path)
  | None => []
  end.

(** [f.readBytes(buffer, n)]: the bytes delivered replace the front of the
    buffer, the rest of the buffer keeps what it held; the count is
    returned. *)
Definition File_readBytes (fd : nat) (buffer : list byte) (n : Z)
  : M (list byte * Z) :=
  e <- ask ;;
  w <- get ;;
  let got := take (Nat.min (Z.to_nat n) (read_avail e)) (file_content w fd) in
  emit (EvReadBytes fd n got) ;;
  ret (got ++ drop (length got) buffer, Z.of_nat (length got)).

(** [f.write(buffer, n)] is handed the first [n] bytes of the buffer; the
    bytes the flash stores are appended to the file, and their count is
    returned. *)
Definition File_write (fd : nat) (buffer : list byte) (n : Z) : M Z :=
  e <- ask ;;
  w <- get ;;
  let data := take (Z.to_nat n) buffer in
  let stored := take (write_avail e) data in
  put (set_fs w match handles w !! fd with
                | Some path => <[path := file_content w fd ++ stored]> (fs w)
                | None => fs w
                end) ;;
  emit (EvWrite fd data) ;;
  ret (Z.of_nat (length stored)).

Definition File_close (fd : nat) : M unit :=
  w <- get ;;
  put (set_handles w (delete fd (handles w))) ;;
  emit (EvClose fd).

(** *** The display and its touch panel *)

(** [setTouchCalibrate] puts the eight coefficients in force. *)
Definition tft_setTouchCalibrate (calData : list byte) : M unit :=
  w <- get ;;
  put (set_panel_cal w (Some (words_of_bytes calData))) ;;
  emit (EvSetTouchCalibrate (words_of_bytes calData)).

(** The interactive routine of LovyanGFX derives eight coefficients from
    the user's touches, copies them to the eight [uint16_t] slots of its
    first argument and puts them in force in the panel; the code relies on
    this, it makes no [setTouchCalibrate] call after it. *)
Definition tft_calibrateTouch (fg bg size : Z) : M (list byte) :=
  e <- ask ;;
  w <- get ;;
  let cal := map (fun i => to_uint16 (touch_coeff e i)) (seq 0 8) in
  put (set_panel_cal w (Some cal)) ;;
  emit (EvCalibrateTouch cal fg bg size) ;;
  ret (bytes_of_words cal).

(** [uint16_t calData[8]] is not initialised. *)
Definition uninitialised_calData : M (list byte) :=
  e <- ask ;;
  ret (map (stack_junk e) (seq 0 16)).

(* ------------------------------------------------------------------ *)
(** ** touch_calibrate_LovyanGFX *)

(** The function is [void]; the model hands back the final content of the
    local array [calData], the calibration record held in memory when the
    function returns. *)
Definition touch_calibrate_LovyanGFX `{LGFX_colors} (REPEAT_CAL : bool)
  : M (list byte) :=
  calData <- uninitialised_calData ;;
  let calDataOK := 0 in
  emit (EvSerialPrintf "calData size: %d\n" [Z.of_nat (length calData)]) ;;
  ex <- LittleFS_exists CALIBRATION_FILE ;;
  r <-
    (if ex then
       if REPEAT_CAL then
         LittleFS_remove CALIBRATION_FILE ;;
         ret (calData, calDataOK)
       else
         f <- LittleFS_open CALIBRATION_FILE "r" ;;
         match f with
         | Some fd =>
             rd <- File_readBytes fd calData 16 ;;
             let '(calData, n) := rd in
             let calDataOK := if n =? 16 then 1 else calDataOK in
             File_close fd ;;
             ret (calData, calDataOK)
         | None => ret (calData, calDataOK)
         end
     else ret (calData, calDataOK)) ;;
  let '(calData, calDataOK) := r in
  if negb (calDataOK =? 0) && negb REPEAT_CAL then
    tft_setTouchCalibrate calData ;;
    ret calData
  else
    emit (EvFillScreen TFT_BLACK) ;;
    emit (EvSetCursor 20 0) ;;
    emit (EvSetTextFont 2) ;;
    emit (EvSetTextSize 1) ;;
    emit (EvSetTextColor TFT_WHITE TFT_BLACK) ;;
    emit (EvPrintln "Touch corners as indicated") ;;
    emit (EvSetTextFont 1) ;;
    emit (EvPrintln EmptyString) ;;
    (if REPEAT_CAL then
       emit (EvSetTextColor TFT_RED TFT_BLACK) ;;
       emit (EvPrintln "Set REPEAT_CAL to false to stop this running again!")
     else ret tt) ;;
    calData <- tft_calibrateTouch TFT_MAGENTA TFT_BLACK 15 ;;
    emit (EvSetTextColor TFT_GREEN TFT_BLACK) ;;
    emit (EvPrintln "Calibration complete!") ;;
    emit (EvSerialPrintln "Your Screen Calibration") ;;
    emit (EvSerialPrintf
            "uint16_t calData[8] = { %d, %d, %d, %d, %d, %d, %d, %d };\n"
            (words_of_bytes calData)) ;;
    f <- LittleFS_open CALIBRATION_FILE "w" ;;
    match f with
    | Some fd =>
        File_write fd calData 16 ;;
        File_close fd ;;
        ret calData
    | None => ret calData
    end.

Arguments bind {A B} m k _ _ /.
Arguments ret {A} a _ _ /.
Arguments emit ev _ _ /.
Arguments ask _ _ /.
Arguments get _ _ /.
Arguments put w _ _ /.
Arguments LittleFS_exists path _ _ /.
Arguments LittleFS_remove path _ _ /.
Arguments LittleFS_open path mode _ _ /.
Arguments File_readBytes fd buffer n _ _ /.
Arguments File_write fd buffer n _ _ /.
Arguments File_close fd _ _ /.
Arguments tft_setTouchCalibrate calData _ _ /.
Arguments tft_calibrateTouch fg bg size _ _ /.
Arguments uninitialised_calData _ _ /.
Arguments touch_calibrate_LovyanGFX {_} REPEAT_CAL _ _ /.

(* ------------------------------------------------------------------ *)
(** ** The button registry *)

(** [initButton(&tft, x, y, w, h, outline, fill, textcolor, label,
    textsize)] overwrites every field of the button it is called on; the
    coordinates are [int16_t], the sizes [uint16_t]. *)
Definition initButton (x y w h outline fill textcolor : Z) (label : string)
    (textsize : Z) : LGFX_Button :=
  {| btn_x := to_int16 x; btn_y := to_int16 y;
     btn_w := to_uint16 w; btn_h := to_uint16 h;
     btn_outline := outline; btn_fill := fill; btn_textcolor := textcolor;
     btn_label := label; btn_textsize := textsize |}.

(** The global arrays of the registry. *)
Record Registry := {
  keyColor : list Z;                    (* int keyColor[NUMBER_OF_KEYS] *)
  key : list LGFX_Button;               (* LGFX_Button key[NUMBER_OF_KEYS] *)
  modeButton : list LGFX_Button;        (* LGFX_Button modeButton[2] *)
  difficultyButton : list LGFX_Button   (* LGFX_Button difficultyButton[3] *)
}.

Definition set_keyColor (g : Registry) (kc : list Z) : Registry :=
  {| keyColor := kc; key := key g; modeButton := modeButton g;
     difficultyButton := difficultyButton g |}.

Definition set_key (g : Registry) (k : list LGFX_Button) : Registry :=
  {| keyColor := keyColor g; key := k; modeButton := modeButton g;
     difficultyButton := difficultyButton g |}.

Definition set_modeButton (g : Registry) (m : list LGFX_Button) : Registry :=
  {| keyColor := keyColor g; key := key g; modeButton := m;
     difficultyButton := difficultyButton g |}.

(** A button on which [initButton] has not run yet. *)
Definition blank_button : LGFX_Button :=
  {| btn_x := 0; btn_y := 0; btn_w := 0; btn_h := 0;
     btn_outline := 0; btn_fill := 0; btn_textcolor := 0;
     btn_label := EmptyString; btn_textsize := 0 |}.

(** Reading [a[i]]. *)
Definition keyColor_at (g : Registry) (i : Z) : Z :=
  default 0 (keyColor g !! Z.to_nat i).

Definition button_at (a : list LGFX_Button) (i : Z) : LGFX_Button :=
  default blank_button (a !! Z.to_nat i).

(** [for (i = 0; i < n; i++) body]. *)
Definition for_loop {S : Type} (n : nat) (body : Z -> S -> S) (s : S) : S :=
  fold_left (fun s i => body (Z.of_nat i) s) (seq 0 n) s.

Definition initKeyColors `{LGFX_colors} (g : Registry) : Registry :=
  for_loop (Z.to_nat NUMBER_OF_KEYS)
    (fun i g => set_keyColor g (<[Z.to_nat i := TFT_DARKGREY]> (keyColor g)))
    g.

(** One pass of the inner loop body of [drawKeypad]. *)
Definition drawKey `{LGFX_colors} (row col : Z) (s : Registry * list Event)
  : Registry * list Event :=
  let '(g, tr) := s in
  let b := to_uint8 (col + row * 8) in
  let g := set_key g
     (<[Z.to_nat b :=
          initButton (KEY_X + col * (KEY_W + KEY_SPACING_X))
                     (KEY_Y + row * (KEY_H + KEY_SPACING_Y))
                     KEY_W KEY_H TFT_WHITE (keyColor_at g b) TFT_WHITE
                     EmptyString 1]> (key g)) in
  (g, tr ++ [EvDrawButton (Key_ref b) (button_at (key g) b)]).

(** The registry after the call, and the drawing calls made. *)
Definition drawKeypad `{LGFX_colors} (g : Registry) : Registry * list Event :=
  for_loop 8 (fun row => for_loop 8 (fun col => drawKey row col)) (g, []).

Definition drawModeButtons `{LGFX_colors} (g : Registry)
  : Registry * list Event :=
  let tr := [EvSetTextColor TFT_WHITE TFT_DARKGREY;
             EvDrawCentreString "Select Mode" (SCREEN_WIDTH / 2) GAME_MODE_1_Y;
             EvSetFont "fonts::Font0"] in
  let g := set_modeButton g
     (<[0%nat := initButton GAME_MODE_21_X GAME_MODE_2_Y
                   GAME_MODE_W GAME_MODE_H TFT_WHITE TFT_BLUE TFT_WHITE
                   "Human-AI" 2]> (modeButton g)) in
  let tr := tr ++ [EvDrawButton (ModeButton_ref 0)
                                (button_at (modeButton g) 0)] in
  let g := set_modeButton g
     (<[1%nat := initButton GAME_MODE_22_X GAME_MODE_2_Y
                   GAME_MODE_W GAME_MODE_H TFT_WHITE TFT_BLUE TFT_WHITE
                   "AI - AI" 2]> (modeButton g)) in
  let tr := tr ++ [EvDrawButton (ModeButton_ref 1)
                                (button_at (modeButton g) 1)] in
  (g, tr).

(** The descriptor [drawKeypad] gives to [key[b]], with [row = b / 8] and
    [col = b % 8], from the colour table [kc]. *)
Definition grid_cell `{LGFX_colors} (kc : list Z) (b : nat) : LGFX_Button :=
  let row := Z.of_nat b / 8 in
  let col := Z.of_nat b mod 8 in
  initButton (KEY_X + col * (KEY_W + KEY_SPACING_X))
             (KEY_Y + row * (KEY_H + KEY_SPACING_Y))
             KEY_W KEY_H TFT_WHITE (default 0 (kc !! b)) TFT_WHITE
             EmptyString 1.

(** The registry and the trace once [drawKeypad] has handled the cells
    [0 .. k-1]. *)
Definition keypad_after `{LGFX_colors} (g : Registry) (k : nat)
  : Registry * list Event :=
  (set_key g (map (grid_cell (keyColor g)) (seq 0 k) ++ drop k (key g)),
   map (fun b => EvDrawButton (Key_ref (Z.of_nat b)) (grid_cell (keyColor g) b))
       (seq 0 k)).

(** The button references a trace draws, in order. *)
Definition drawn (tr : list Event) : list ButtonRef :=
  flat_map (fun ev => match ev with
                      | EvDrawButton obj _ => [obj]
                      | _ => []
                      end) tr.

(** *** Geometry *)

(** [initButton] takes the centre of the button (the comment at [KEY_X]
    says so): the button covers [w] columns from [x - w/2] on and [h] rows
    from [y - h/2] on. *)
Definition btn_left (b : LGFX_Button) : Z := btn_x b - Z.shiftr (btn_w b) 1.
Definition btn_top (b : LGFX_Button) : Z := btn_y b - Z.shiftr (btn_h b) 1.

(** Two buttons overlap when they share a pixel. *)
Definition overlap (a b : LGFX_Button) : Prop :=
  btn_left a < btn_left b + btn_w b /\ btn_left b < btn_left a + btn_w a /\
  btn_top a < btn_top b + btn_h b /\ btn_top b < btn_top a + btn_h a.

(** The same test when [(x, y)] is read as the upper left corner. *)
Definition overlap_corner (a b : LGFX_Button) : Prop :=
  btn_x a < btn_x b + btn_w b /\ btn_x b < btn_x a + btn_w a /\
  btn_y a < btn_y b + btn_h b /\ btn_y b < btn_y a + btn_h a.

(** The pixel [(px, py)] lies on the button. *)
Definition covers (b : LGFX_Button) (px py : Z) : Prop :=
  btn_left b <= px < btn_left b + btn_w b /\
  btn_top b <= py < btn_top b + btn_h b.

(* ------------------------------------------------------------------ *)
(** ** The UI flags *)

Record UIState := {
  touchedButton : Z;
  isButtonTouched : bool;
  isWaitingForHumanMove : bool;
  isSettingsMode : bool
}.

(** The initialisers of the four globals. *)
Definition initial_ui : UIState :=
  {| touchedButton := -1;
     isButtonTouched := false;
     isWaitingForHumanMove := false;
     isSettingsMode := true |}.

(** The two states of the mode machine, read off [isSettingsMode]. *)
Inductive UIMode := Settings | Play.

Definition currentMode (u : UIState) : UIMode :=
  if isSettingsMode u then Settings else Play.

(* ------------------------------------------------------------------ *)
(** ** Reading a trace *)

Definition is_calibrateTouch (ev : Event) : bool :=
  match ev with EvCalibrateTouch _ _ _ _ => true | _ => false end.

Definition is_setTouchCalibrate (ev : Event) : bool :=
  match ev with EvSetTouchCalibrate _ => true | _ => false end.

Definition is_write (ev : Event) : bool :=
  match ev with EvWrite _ _ => true | _ => false end.

Definition is_remove (ev : Event) : bool :=
  match ev with EvRemove _ => true | _ => false end.

Definition is_close (ev : Event) : bool :=
  match ev with EvClose _ => true | _ => false end.

(** How often a kind of call occurs. *)
Definition calls (kind : Event -> bool) (tr : list Event) : nat :=
  length (List.filter kind tr).

(** The records handed to [setTouchCalibrate], in order. *)
Definition applied (tr : list Event) : list (list Z) :=
  flat_map (fun ev => match ev with
                      | EvSetTouchCalibrate cal => [cal]
                      | _ => []
                      end) tr.

(** The records produced by [calibrateTouch], in order. *)
Definition acquired (tr : list Event) : list (list Z) :=
  flat_map (fun ev => match ev with
                      | EvCalibrateTouch cal _ _ _ => [cal]
                      | _ => []
                      end) tr.

(** The byte strings handed to [File::write], in order. *)
Definition written (tr : list Event) : list (list byte) :=
  flat_map (fun ev => match ev with
                      | EvWrite _ data => [data]
                      | _ => []
                      end) tr.

(** The handles a trace leaves open: a successful open adds its handle, a
    close takes it out. *)
Definition track_handle (open : list nat) (ev : Event) : list nat :=
  match ev with
  | EvOpen _ _ (Some fd) => fd :: open
  | EvClose fd => List.filter (fun h => negb (Nat.eqb h fd)) open
  | _ => open
  end.

Definition left_open (tr : list Event) : list nat :=
  fold_left track_handle tr [].

(** The handles a trace ever obtained. *)
Definition opened (tr : list Event) : list nat :=
  flat_map (fun ev => match ev with
                      | EvOpen _ _ (Some fd) => [fd]
                      | _ => []
                      end) tr.

(** [a] is called at some point and [b] at some later point. *)
Definition precedes (a b : Event -> bool) (tr : list Event) : Prop :=
  exists tr1 ea tr2 eb tr3,
    tr = tr1 ++ ea :: tr2 ++ eb :: tr3 /\ a ea = true /\ b eb = true.

(** The record the flash would hand over: the file is there, opens, and
    delivers all sixteen bytes.  [None] covers a missing file, a failed
    open and a short read. *)
Definition stored_record (e : Env) (w : World) : option (list byte) :=
  match fs w !! CALIBRATION_FILE with
  | Some content =>
      if open_r_ok e then
        let got := take (Nat.min 16 (read_avail e)) content in
        if Nat.eqb (length got) 16 then Some got else None
      else None
  | None => None
  end.

(** The same hardware, with the answer to the open for writing fixed. *)
Definition with_open_w (e : Env) (ok : bool) : Env :=
  {| stack_junk := stack_junk e; open_r_ok := open_r_ok e;
     read_avail := read_avail e; remove_ok := remove_ok e;
     open_w_ok := ok; write_avail := write_avail e;
     touch_coeff := touch_coeff e |}.

(** The record the user's touches produce. *)
Definition touch_record (e : Env) : list Z :=
  map (fun i => to_uint16 (touch_coeff e i)) (seq 0 8).


(* ------------------------------------------------------------------ *)
(** ** Sample data for concrete runs *)

(** An RGB565 palette to run the model with. *)
Definition sample_colors : LGFX_colors :=
  {| TFT_BLACK := 0; TFT_WHITE := 65535; TFT_RED := 63488;
     TFT_GREEN := 2016; TFT_BLUE := 31; TFT_MAGENTA := 63519;
     TFT_DARKGREY := 31727 |}.

(** The coefficients quoted in the comment after the [Serial.printf] of
    the calibration routine. *)
Definition sample_coefficients : list Z :=
  [3756; 373; 3718; 3827; 314; 370; 248; 3848].

Definition sample_record : list byte := bytes_of_words sample_coefficients.

(** Hardware without faults, touched so as to give the sample
    coefficients. *)
Definition sample_env : Env :=
  {| stack_junk := fun _ => x00;
     open_r_ok := true;
     read_avail := 16;
     remove_ok := true;
     open_w_ok := true;
     write_avail := 16;
     touch_coeff := fun i => nth i sample_coefficients 0 |}.

(** The same hardware, with a failing remove, or with a flash that stores
    only the first [n] bytes of a write. *)
Definition with_remove_ok (e : Env) (ok : bool) : Env :=
  {| stack_junk := stack_junk e; open_r_ok := open_r_ok e;
     read_avail := read_avail e; remove_ok := ok;
     open_w_ok := open_w_ok e; write_avail := write_avail e;
     touch_coeff := touch_coeff e |}.

Definition with_write_avail (e : Env) (n : nat) : Env :=
  {| stack_junk := stack_junk e; open_r_ok := open_r_ok e;
     read_avail := read_avail e; remove_ok := remove_ok e;
     open_w_ok := open_w_ok e; write_avail := n;
     touch_coeff := touch_coeff e |}.

(** A device on its first boot, and one that holds a calibration file. *)
Definition blank_world : World :=
  {| fs := ∅; handles := ∅; panel_cal := None |}.

Definition calibrated_world : World :=
  set_fs blank_world {[ CALIBRATION_FILE := sample_record ]}.

(** The registry before any of the drawing functions has run. *)
Definition blank_registry : Registry :=
  {| keyColor := replicate 64 0;
     key := replicate 64 blank_button;
     modeButton := replicate 2 blank_button;
     difficultyButton := replicate 3 blank_button |}.
(* ------------------------------------------------------------------ *)
(** ** Further vocabulary *)

Definition RESULT_LINE_Y : Z := 244.

(** The same hardware, with other content in the uninitialised array. *)
Definition with_stack_junk (e : Env) (junk : nat -> byte) : Env :=
  {| stack_junk := junk; open_r_ok := open_r_ok e;
     read_avail := read_avail e; remove_ok := remove_ok e;
     open_w_ok := open_w_ok e; write_avail := write_avail e;
     touch_coeff := touch_coeff e |}.

(** The red line shown when [REPEAT_CAL] is set. *)
Definition is_repeat_warning (ev : Event) : bool :=
  match ev with
  | EvPrintln s =>
      String.eqb s "Set REPEAT_CAL to false to stop this running again!"
  | _ => false
  end.

(** The coefficient lists reported on [Serial] by the
    ["uint16_t calData[8] = ..."] line. *)
Definition reported (tr : list Event) : list (list Z) :=
  flat_map (fun ev =>
    match ev with
    | EvSerialPrintf fmt args =>
        if String.eqb fmt
             "uint16_t calData[8] = { %d, %d, %d, %d, %d, %d, %d, %d };\n"
        then [args] else []
    | _ => []
    end) tr.

(** The flash holds no full record: no file, or fewer than 16 bytes. *)
Definition short_on_flash (w : World) : Prop :=
  match fs w !! CALIBRATION_FILE with
  | Some content => (length content < 16)%nat
  | None => True
  end.

(** The button lies on the 240 pixel wide screen, above the result line. *)
Definition in_key_area (b : LGFX_Button) : Prop :=
  0 <= btn_left b /\ btn_left b + btn_w b <= SCREEN_WIDTH /\
  0 <= btn_top b /\ btn_top b + btn_h b <= RESULT_LINE_Y.

(** Sample buttons: key[0] and modeButton[0] as the drawing functions
    build them on the blank registry with the sample palette. *)
Definition sample_key0 : LGFX_Button :=
  @grid_cell sample_colors (keyColor blank_registry) 0.

Definition sample_fresh_key0 : LGFX_Button :=
  @grid_cell sample_colors (replicate 64 31727) 0.

Definition sample_mode0 : LGFX_Button :=
  initButton GAME_MODE_21_X GAME_MODE_2_Y GAME_MODE_W GAME_MODE_H
    65535 31 65535 "Human-AI" 2.

(* ================================================================== *)
(** * Theorems *)

(** ** Bytes and words *)

Lemma byte_to_of_Z z : byte_to_Z (byte_of_Z z) = z mod 256.
Proof.
  unfold byte_to_Z, byte_of_Z.
  assert (Hb : 0 <= z mod 256 < 256) by (apply Z.mod_pos_bound; lia).
  destruct (Byte.of_N (Z.to_N (z mod 256))) as [b|] eqn:E.
  - apply Byte.to_of_N in E. rewrite E. lia.
  - apply Byte.of_N_None_iff in E. lia.
Qed.

Lemma byte_to_Z_range b : 0 <= byte_to_Z b < 256.
Proof.
  unfold byte_to_Z. pose proof (Byte.to_N_bounded b). lia.
Qed.

Lemma lor_low_high lo hi :
  0 <= lo < 256 -> Z.lor lo (Z.shiftl hi 8) = lo + 256 * hi.
Proof.
  intros Hlo.
  rewrite <- Z.lxor_lor, <- Z.add_nocarry_lxor.
  - rewrite Z.shiftl_mul_pow2 by lia. change (2 ^ 8) with 256. lia.
  - apply Z.bits_inj'. intros n Hn.
    rewrite Z.land_spec, Z.bits_0.
    destruct (Z.ltb_spec n 8).
    + rewrite Z.shiftl_spec_low by lia. apply andb_false_r.
    + replace lo with (lo mod 2 ^ 8) by (apply Z.mod_small; simpl; lia).
      rewrite Z.mod_pow2_bits_high by lia. reflexivity.
  - apply Z.bits_inj'. intros n Hn.
    rewrite Z.land_spec, Z.bits_0.
    destruct (Z.ltb_spec n 8).
    + rewrite Z.shiftl_spec_low by lia. apply andb_false_r.
    + replace lo with (lo mod 2 ^ 8) by (apply Z.mod_small; simpl; lia).
      rewrite Z.mod_pow2_bits_high by lia. reflexivity.
Qed.

Lemma u16_of_bytes_range lo hi : 0 <= u16_of_bytes lo hi < 65536.
Proof.
  unfold u16_of_bytes.
  pose proof (byte_to_Z_range lo). pose proof (byte_to_Z_range hi).
  rewrite lor_low_high by lia. lia.
Qed.

Lemma u16_roundtrip z : u16_of_bytes (byte_of_Z z) (byte_of_Z (Z.shiftr (to_uint16 z) 8)) = to_uint16 z.
Proof.
  unfold u16_of_bytes, to_uint16. rewrite !byte_to_of_Z.
  rewrite lor_low_high by (apply Z.mod_pos_bound; lia).
  rewrite Z.shiftr_div_pow2 by lia. change (2 ^ 8) with 256.
  assert (0 <= z mod 65536 < 65536) by (apply Z.mod_pos_bound; lia).
  rewrite (Z.mod_small (z mod 65536 / 256)) by (split; [apply Z.div_pos; lia | apply Z.div_lt_upper_bound; lia]).
  replace (z mod 256) with ((z mod 65536) mod 256).
  - pose proof (Z.div_mod (z mod 65536) 256). lia.
  - change 65536 with (256 * 256). rewrite Z.rem_mul_r by lia.
    rewrite Z.add_mod by lia. rewrite Z.mul_comm, Z.mod_mul by lia. rewrite Z.add_0_r.
    rewrite !Z.mod_mod by lia. reflexivity.
Qed.

Lemma words_of_bytes_of_words ws :
  words_of_bytes (bytes_of_words ws) = map to_uint16 ws.
Proof.
  induction ws as [|z ws IH]; [reflexivity|].
  cbn [bytes_of_words flat_map bytes_of_u16 app words_of_bytes map].
  rewrite u16_roundtrip. f_equal. exact IH.
Qed.

Lemma to_uint16_idem z : to_uint16 (to_uint16 z) = to_uint16 z.
Proof. unfold to_uint16. apply Z.mod_mod. lia. Qed.

Lemma length_words_of_bytes buf :
  length (words_of_bytes buf) = Nat.div2 (length buf).
Proof.
  revert buf. fix IH 1. intros [|lo [|hi rest]]; [reflexivity..|].
  cbn [words_of_bytes length Nat.div2]. f_equal. apply IH.
Qed.

Lemma words_of_bytes_range buf :
  Forall (fun c => 0 <= c < 65536) (words_of_bytes buf).
Proof.
  revert buf. fix IH 1. intros [|lo [|hi rest]]; [constructor..|].
  cbn [words_of_bytes]. constructor; [apply u16_of_bytes_range | apply IH].
Qed.

Section Calibration.
Context `{LGFX_colors}.

Lemma touch_record_words e :
  words_of_bytes (bytes_of_words (touch_record e)) = touch_record e.
Proof.
  rewrite words_of_bytes_of_words. unfold touch_record.
  rewrite map_map. apply map_ext. intros i. apply to_uint16_idem.
Qed.

Lemma length_touch_bytes e : length (bytes_of_words (touch_record e)) = 16%nat.
Proof. reflexivity. Qed.

Lemma exists_Some {A} (x : A) : bool_decide (is_Some (Some x)) = true.
Proof. apply bool_decide_true. eauto. Qed.

Lemma exists_None {A} : bool_decide (is_Some (@None A)) = false.
Proof. apply bool_decide_false. intros [? ?]; discriminate. Qed.

Lemma world_eta w :
  {| fs := fs w; handles := handles w; panel_cal := panel_cal w |} = w.
Proof. destruct w; reflexivity. Qed.

Lemma fresh_handle_unused (h : gmap nat string) : h !! fresh (dom h) = None.
Proof. apply not_elem_of_dom. apply is_fresh. Qed.

Lemma content_of_new_handle w (h : gmap nat string) fd path :
  file_content (set_handles w (<[fd := path]> h)) fd
  = default [] (fs w !! path).
Proof.
  unfold file_content. cbn [set_handles handles fs].
  rewrite lookup_insert_eq. reflexivity.
Qed.

Lemma stored_record_Some e w rec :
  stored_record e w = Some rec ->
  exists content,
    fs w !! CALIBRATION_FILE = Some content /\ open_r_ok e = true /\
    take (Nat.min 16 (read_avail e)) content = rec /\ length rec = 16%nat.
Proof.
  unfold stored_record. intros Hs.
  destruct (fs w !! CALIBRATION_FILE) as [content|]; [|discriminate].
  destruct (open_r_ok e); [|discriminate].
  destruct (Nat.eqb_spec (length (take (Nat.min 16 (read_avail e)) content)) 16);
    [|discriminate].
  injection Hs as <-. eauto.
Qed.

Ltac exec :=
  cbn [touch_calibrate_LovyanGFX bind ret emit ask get put
       LittleFS_exists LittleFS_remove LittleFS_open File_readBytes File_write
       File_close tft_setTouchCalibrate tft_calibrateTouch
       uninitialised_calData set_fs set_handles set_panel_cal
       value world trace fs handles panel_cal app andb negb
       String.eqb Ascii.eqb Bool.eqb].

Ltac facts :=
  repeat match goal with
  | Hx : fs _ !! _ = _ |- _ => rewrite Hx
  | Hx : open_r_ok _ = _ |- _ => rewrite Hx
  | Hx : open_w_ok _ = _ |- _ => rewrite Hx
  | Hx : remove_ok _ = _ |- _ => rewrite Hx
  end;
  rewrite ?exists_Some, ?exists_None, ?Z.eqb_refl.

Ltac run := repeat (progress (exec; facts)).

Ltac settle :=
  match goal with
  | |- context [touch_coeff ?e] =>
      fold (touch_record e);
      change (take (Z.to_nat 16) (bytes_of_words (touch_record e)))
        with (bytes_of_words (touch_record e))
  end;
  rewrite ?touch_record_words, ?content_of_new_handle;
  cbv [set_fs set_handles set_panel_cal]; cbn [fs handles panel_cal];
  rewrite ?lookup_insert_eq;
  change (default [] (Some (@nil byte))) with (@nil byte);
  cbn [app];
  rewrite ?insert_insert_eq, ?insert_delete_eq,
    ?delete_insert_id by apply fresh_handle_unused;
  rewrite ?delete_id by assumption;
  rewrite ?world_eta;
  try reflexivity.

(** The run that finds a full record. *)
Lemma run_stored e w rec :
  stored_record e w = Some rec ->
  let fd := fresh (dom (handles w)) in
  touch_calibrate_LovyanGFX false e w =
  {| value := rec;
     world := set_panel_cal w (Some (words_of_bytes rec));
     trace := [EvSerialPrintf "calData size: %d\n" [16];
               EvExists CALIBRATION_FILE true;
               EvOpen CALIBRATION_FILE "r" (Some fd);
               EvReadBytes fd 16 rec;
               EvClose fd;
               EvSetTouchCalibrate (words_of_bytes rec)] |}.
Proof.
  intros Hs fd. destruct (stored_record_Some _ _ _ Hs) as (content & Hf & Ho & Hr & Hl).
  run. rewrite content_of_new_handle, Hf.
  change (default [] (Some content)) with content.
  change (Z.to_nat 16) with 16%nat. rewrite Hr, Hl.
  change (Z.of_nat 16 =? 16) with true. cbv iota.
  change (1 =? 0) with false. run.
  change (drop 16 (map (stack_junk e) (seq 0 16))) with (@nil byte).
  cbv [set_fs set_handles set_panel_cal]. cbn [fs handles panel_cal].
  rewrite app_nil_r, delete_insert_id by apply fresh_handle_unused.
  reflexivity.
Qed.

(** The run that goes through the interactive routine: the flag is set,
    or the flash holds no full record. *)
Lemma run_acquire rc e w :
  rc = true \/ stored_record e w = None ->
  let fd := fresh (dom (handles w)) in
  let cal := touch_record e in
  let present := bool_decide (is_Some (fs w !! CALIBRATION_FILE)) in
  let fs1 := if rc && remove_ok e
             then delete CALIBRATION_FILE (fs w) else fs w in
  touch_calibrate_LovyanGFX rc e w =
  {| value := bytes_of_words cal;
     world :=
       {| fs := if open_w_ok e
                then <[CALIBRATION_FILE :=
                         take (write_avail e) (bytes_of_words cal)]> fs1
                else fs1;
          handles := handles w;
          panel_cal := Some cal |};
     trace :=
       [EvSerialPrintf "calData size: %d\n" [16];
        EvExists CALIBRATION_FILE present]
       ++ (if present then
             if rc then [EvRemove CALIBRATION_FILE]
             else if open_r_ok e then
               [EvOpen CALIBRATION_FILE "r" (Some fd);
                EvReadBytes fd 16
                  (take (Nat.min 16 (read_avail e))
                        (default [] (fs w !! CALIBRATION_FILE)));
                EvClose fd]
             else [EvOpen CALIBRATION_FILE "r" None]
           else [])
       ++ [EvFillScreen TFT_BLACK; EvSetCursor 20 0; EvSetTextFont 2;
           EvSetTextSize 1; EvSetTextColor TFT_WHITE TFT_BLACK;
           EvPrintln "Touch corners as indicated"; EvSetTextFont 1;
           EvPrintln EmptyString]
       ++ (if rc then
             [EvSetTextColor TFT_RED TFT_BLACK;
              EvPrintln "Set REPEAT_CAL to false to stop this running again!"]
           else [])
       ++ [EvCalibrateTouch cal TFT_MAGENTA TFT_BLACK 15;
           EvSetTextColor TFT_GREEN TFT_BLACK;
           EvPrintln "Calibration complete!";
           EvSerialPrintln "Your Screen Calibration";
           EvSerialPrintf
             "uint16_t calData[8] = { %d, %d, %d, %d, %d, %d, %d, %d };\n" cal;
           EvOpen CALIBRATION_FILE "w" (if open_w_ok e then Some fd else None)]
       ++ (if open_w_ok e then
             [EvWrite fd (bytes_of_words cal); EvClose fd]
           else []) |}.
Proof.
  intros Hc fd cal present fs1. subst present fs1 cal fd.
  destruct rc.
  1: clear Hc;
    destruct (fs w !! CALIBRATION_FILE) as [content|] eqn:Hf;
      destruct (remove_ok e) eqn:Hr;
      destruct (open_w_ok e) eqn:Hw; run; settle.
  all: destruct Hc as [Hc|Hc]; [discriminate|].
  all: unfold stored_record in Hc.
  all: destruct (fs w !! CALIBRATION_FILE) as [content|] eqn:Hf.
  all: try (destruct (open_w_ok e) eqn:Hw; run; settle; fail).
  all: destruct (open_r_ok e) eqn:Ho.
  all: try (destruct (open_w_ok e) eqn:Hw; run; settle; fail).
  all: destruct (Nat.eqb_spec
                    (length (take (Nat.min 16 (read_avail e)) content)) 16)
          as [|Hshort]; [discriminate|].
  all: assert (Hn : (Z.of_nat (length (take (Nat.min 16 (read_avail e)) content))
                      =? 16) = false) by (apply Z.eqb_neq; lia).
  all: destruct (open_w_ok e) eqn:Hw; run;
          rewrite content_of_new_handle, Hf;
          change (default [] (Some content)) with content;
          change (Z.to_nat 16) with 16%nat; rewrite Hn; cbv iota;
          run; settle.
Qed.

Lemma full_read_is_take16 (content : list byte) n :
  length (take (Nat.min 16 n) content) = 16%nat ->
  take (Nat.min 16 n) content = take 16 content.
Proof.
  rewrite length_take. intros Hl. f_equal. lia.
Qed.

Lemma stored_record_intro e w content :
  fs w !! CALIBRATION_FILE = Some content ->
  open_r_ok e = true ->
  length (take (Nat.min 16 (read_avail e)) content) = 16%nat ->
  stored_record e w = Some (take 16 content).
Proof.
  intros Hf Ho Hl. unfold stored_record. rewrite Hf, Ho, Hl.
  cbn [Nat.eqb]. f_equal. apply full_read_is_take16, Hl.
Qed.

Lemma stored_record_None e w :
  fs w !! CALIBRATION_FILE = None \/
  (exists content,
     fs w !! CALIBRATION_FILE = Some content /\
     (open_r_ok e = false \/
      (length (take (Nat.min 16 (read_avail e)) content) < 16)%nat)) ->
  stored_record e w = None.
Proof.
  unfold stored_record.
  intros [-> | (content & -> & [-> | Hshort])]; [reflexivity..|].
  destruct (open_r_ok e); [|reflexivity].
  destruct (Nat.eqb_spec (length (take (Nat.min 16 (read_avail e)) content)) 16);
    [lia | reflexivity].
Qed.

(** C1: when the calibration file exists, REPEAT_CAL is false, the open
    for reading succeeds and the read delivers exactly 16 bytes, the
    function hands exactly the 8 coefficients held in these bytes to
    setTouchCalibrate, never calls calibrateTouch, never writes, never
    removes, and leaves the file system as it found it. *)
Theorem stored_record_applied_untouched e w content :
  fs w !! CALIBRATION_FILE = Some content ->
  open_r_ok e = true ->
  length (take (Nat.min 16 (read_avail e)) content) = 16%nat ->
  let r := touch_calibrate_LovyanGFX false e w in
  let rec := take 16 content in
  applied (trace r) = [words_of_bytes rec] /\
  length (words_of_bytes rec) = 8%nat /\
  Forall (fun c => 0 <= c < 65536) (words_of_bytes rec) /\
  value r = rec /\
  calls is_calibrateTouch (trace r) = 0%nat /\
  calls is_write (trace r) = 0%nat /\
  calls is_remove (trace r) = 0%nat /\
  fs (world r) = fs w /\
  fs (world r) !! CALIBRATION_FILE = Some content /\
  panel_cal (world r) = Some (words_of_bytes rec).
Proof.
  intros Hf Ho Hl r rec. subst r rec.
  pose proof (stored_record_intro e w content Hf Ho Hl) as Hs.
  rewrite (run_stored e w _ Hs).
  cbn [trace value world set_panel_cal fs panel_cal].
  repeat split; try reflexivity.
  - rewrite length_words_of_bytes.
    rewrite <- (full_read_is_take16 content (read_avail e) Hl), Hl. reflexivity.
  - apply words_of_bytes_range.
  - exact Hf.
Qed.

(** C2, as amended: with REPEAT_CAL true the function calls calibrateTouch
    exactly once whatever the flash holds.  When the file exists, remove is
    called on it, once and before calibrateTouch.  When the open for writing
    succeeds the acquired 16-byte record is handed to write, and the file
    then holds what the flash stored of it and nothing of its prior
    content: the whole record when all 16 bytes are stored.  When that open
    fails nothing is written: the file is gone if the remove succeeded and
    keeps its prior content if it did not. *)
Theorem forced_recalibration e w :
  let r := touch_calibrate_LovyanGFX true e w in
  calls is_calibrateTouch (trace r) = 1%nat /\
  acquired (trace r) = [touch_record e] /\
  value r = bytes_of_words (touch_record e) /\
  length (value r) = 16%nat /\
  calls is_setTouchCalibrate (trace r) = 0%nat /\
  match fs w !! CALIBRATION_FILE with
  | Some _ =>
      calls is_remove (trace r) = 1%nat /\
      precedes is_remove is_calibrateTouch (trace r)
  | None => calls is_remove (trace r) = 0%nat
  end /\
  if open_w_ok e
  then written (trace r) = [value r] /\
       fs (world r) !! CALIBRATION_FILE
       = Some (take (write_avail e) (value r)) /\
       if (16 <=? write_avail e)%nat
       then fs (world r) !! CALIBRATION_FILE = Some (value r)
       else (length (take (write_avail e) (value r)) < 16)%nat
  else written (trace r) = [] /\
       fs (world r) !! CALIBRATION_FILE
       = if remove_ok e then None else fs w !! CALIBRATION_FILE.
Proof.
  intros r. subst r.
  rewrite (run_acquire true e w) by (left; reflexivity).
  cbn [trace value world fs andb].
  assert (Hfull : (16 <= write_avail e)%nat ->
                  take (write_avail e) (bytes_of_words (touch_record e))
                  = bytes_of_words (touch_record e))
    by (intros Hle; apply take_ge; rewrite length_touch_bytes; exact Hle).
  assert (Hpart : ~ (16 <= write_avail e)%nat ->
                  (length (take (write_avail e)
                             (bytes_of_words (touch_record e))) < 16)%nat)
    by (intros Hlt; rewrite length_take, length_touch_bytes; lia).
  destruct (fs w !! CALIBRATION_FILE) as [content|] eqn:Hf;
    rewrite ?exists_Some, ?exists_None;
    destruct (open_w_ok e); destruct (remove_ok e);
    rewrite ?lookup_insert_eq, ?lookup_delete_eq, ?Hf;
    destruct (Nat.leb_spec 16 (write_avail e));
    rewrite ?Hfull by assumption;
    repeat split; try reflexivity; try (apply Hpart; lia).
  all: eexists [_; _], _, [_; _; _; _; _; _; _; _; _; _], _, _;
       repeat split; reflexivity.
Qed.

(** C3: when the calibration file is missing, or is there but cannot be
    opened for reading or delivers fewer than 16 bytes, the function calls
    calibrateTouch exactly once; when the open for writing then succeeds it
    writes once, exactly the 16 bytes of the acquired record; the file then
    holds what the flash stored of them, all 16 when the flash stores
    all. *)
Theorem missing_or_short_record_reacquired rc e w :
  fs w !! CALIBRATION_FILE = None \/
  (exists content,
     fs w !! CALIBRATION_FILE = Some content /\
     (open_r_ok e = false \/
      (length (take (Nat.min 16 (read_avail e)) content) < 16)%nat)) ->
  let r := touch_calibrate_LovyanGFX rc e w in
  calls is_calibrateTouch (trace r) = 1%nat /\
  calls is_setTouchCalibrate (trace r) = 0%nat /\
  acquired (trace r) = [touch_record e] /\
  if open_w_ok e
  then exists data,
         written (trace r) = [data] /\ length data = 16%nat /\
         words_of_bytes data = touch_record e /\
         fs (world r) !! CALIBRATION_FILE
         = Some (take (write_avail e) data) /\
         if (16 <=? write_avail e)%nat
         then fs (world r) !! CALIBRATION_FILE = Some data
         else (length (take (write_avail e) data) < 16)%nat
  else written (trace r) = [].
Proof.
  intros Hc r. subst r.
  rewrite (run_acquire rc e w) by (right; apply stored_record_None, Hc).
  cbn [trace value world fs]. clear Hc.
  destruct (bool_decide (is_Some (fs w !! CALIBRATION_FILE)));
    destruct rc; destruct (open_r_ok e); destruct (open_w_ok e);
    repeat split; try reflexivity.
  all: exists (bytes_of_words (touch_record e));
       rewrite lookup_insert_eq, touch_record_words;
       repeat split; try reflexivity.
  all: destruct (Nat.leb_spec 16 (write_avail e)).
  all: try (rewrite take_ge by (rewrite length_touch_bytes; assumption);
            reflexivity).
  all: rewrite length_take, length_touch_bytes; lia.
Qed.

(** C4: on every path the record the function ends with is in force in
    the touch panel when it returns, and exactly one call has handed it to
    the panel: setTouchCalibrate, as the last call, on a run that takes the
    persisted record, and calibrateTouch, which produces it and puts it in
    force, on a run that acquires. *)
Theorem record_in_force_on_return rc e w :
  let r := touch_calibrate_LovyanGFX rc e w in
  panel_cal (world r) = Some (words_of_bytes (value r)) /\
  applied (trace r) ++ acquired (trace r) = [words_of_bytes (value r)] /\
  length (words_of_bytes (value r)) = 8%nat /\
  match (if rc then None else stored_record e w) with
  | Some rec =>
      value r = rec /\
      applied (trace r) = [words_of_bytes rec] /\
      last (trace r) = Some (EvSetTouchCalibrate (words_of_bytes rec)) /\
      acquired (trace r) = []
  | None =>
      value r = bytes_of_words (touch_record e) /\
      acquired (trace r) = [touch_record e] /\
      calls is_calibrateTouch (trace r) = 1%nat /\
      applied (trace r) = []
  end.
Proof.
  intros r. subst r.
  destruct rc; [|destruct (stored_record e w) as [rec|] eqn:Hs].
  - rewrite (run_acquire true e w) by (left; reflexivity).
    cbn [trace value world panel_cal]. rewrite touch_record_words.
    destruct (bool_decide (is_Some (fs w !! CALIBRATION_FILE)));
      destruct (open_w_ok e); repeat split; reflexivity.
  - rewrite (run_stored e w rec Hs).
    cbn [trace value world set_panel_cal panel_cal].
    destruct (stored_record_Some e w rec Hs) as (content & _ & _ & _ & Hl).
    repeat split; try reflexivity.
    rewrite length_words_of_bytes, Hl. reflexivity.
  - rewrite (run_acquire false e w) by (right; exact Hs).
    cbn [trace value world panel_cal]. rewrite touch_record_words.
    destruct (bool_decide (is_Some (fs w !! CALIBRATION_FILE)));
      destruct (open_r_ok e); destruct (open_w_ok e);
      repeat split; reflexivity.
Qed.

(** C5: on a run that goes through calibrateTouch, when the open for
    writing fails the function makes no write call, the failed open is its
    last call, and it returns holding the freshly acquired record: the
    record in memory and the state of the touch panel are the very ones it
    returns with when the open succeeds. *)
Theorem failed_write_keeps_record rc e w :
  rc = true \/ stored_record e w = None ->
  open_w_ok e = false ->
  let r := touch_calibrate_LovyanGFX rc e w in
  calls is_write (trace r) = 0%nat /\
  written (trace r) = [] /\
  last (trace r) = Some (EvOpen CALIBRATION_FILE "w" None) /\
  acquired (trace r) = [touch_record e] /\
  value r = bytes_of_words (touch_record e) /\
  words_of_bytes (value r) = touch_record e /\
  value r = value (touch_calibrate_LovyanGFX rc (with_open_w e true) w) /\
  panel_cal (world r)
  = panel_cal (world (touch_calibrate_LovyanGFX rc (with_open_w e true) w)).
Proof.
  intros Hc Hw r. subst r.
  assert (Hc' : rc = true \/ stored_record (with_open_w e true) w = None)
    by exact Hc.
  rewrite (run_acquire rc e w Hc), (run_acquire rc (with_open_w e true) w Hc').
  cbn [trace value world panel_cal]. rewrite Hw, touch_record_words.
  destruct (bool_decide (is_Some (fs w !! CALIBRATION_FILE)));
    destruct rc; destruct (open_r_ok e); repeat split; reflexivity.
Qed.

(** C10: on every path the table of open handles is the same after the
    call as before it, every handle the trace shows being opened is closed
    again within the trace, and there are as many closes as successful
    opens. *)
Theorem no_handle_left_open rc e w :
  let r := touch_calibrate_LovyanGFX rc e w in
  handles (world r) = handles w /\
  left_open (trace r) = [] /\
  length (opened (trace r)) = calls is_close (trace r).
Proof.
  intros r. subst r.
  destruct rc; [|destruct (stored_record e w) as [rec|] eqn:Hs].
  - rewrite (run_acquire true e w) by (left; reflexivity).
    cbn [trace world handles].
    destruct (bool_decide (is_Some (fs w !! CALIBRATION_FILE)));
      destruct (open_w_ok e);
      cbn [app left_open fold_left track_handle List.filter opened flat_map length];
      rewrite ?Nat.eqb_refl; repeat split; reflexivity.
  - rewrite (run_stored e w rec Hs).
    cbn [trace world handles app left_open fold_left track_handle List.filter opened flat_map length].
    rewrite ?Nat.eqb_refl; repeat split; reflexivity.
  - rewrite (run_acquire false e w) by (right; exact Hs).
    cbn [trace world handles].
    destruct (bool_decide (is_Some (fs w !! CALIBRATION_FILE)));
      destruct (open_r_ok e); destruct (open_w_ok e);
      cbn [app left_open fold_left track_handle List.filter opened flat_map length];
      rewrite ?Nat.eqb_refl; repeat split; reflexivity.
Qed.
End Calibration.

(** ** Loops *)

Lemma for_loop_S {St : Type} n (body : Z -> St -> St) s :
  for_loop (S n) body s = body (Z.of_nat n) (for_loop n body s).
Proof.
  unfold for_loop. rewrite seq_S, fold_left_app. reflexivity.
Qed.

(** An invariant that holds before the loop and is carried by every pass
    holds after it. *)
Lemma for_loop_inv {St : Type} (P : nat -> St -> Prop) n body s :
  P 0%nat s ->
  (forall i t, (i < n)%nat -> P i t -> P (S i) (body (Z.of_nat i) t)) ->
  P n (for_loop n body s).
Proof.
  intros H0 Hstep.
  assert (Hall : forall m, (m <= n)%nat -> P m (for_loop m body s)).
  { induction m as [|m IH]; intros Hm; [exact H0|].
    rewrite for_loop_S. apply Hstep; [lia | apply IH; lia]. }
  apply Hall. lia.
Qed.

Lemma to_int16_small x : -32768 <= x < 32768 -> to_int16 x = x.
Proof. intros Hx. unfold to_int16. rewrite Z.mod_small by lia. lia. Qed.

Lemma to_uint16_small x : 0 <= x < 65536 -> to_uint16 x = x.
Proof. intros Hx. unfold to_uint16. apply Z.mod_small. lia. Qed.

Lemma to_uint8_small x : 0 <= x < 256 -> to_uint8 x = x.
Proof. intros Hx. unfold to_uint8. apply Z.mod_small. lia. Qed.

Section Registry.
Context `{LGFX_colors}.

(** *** initKeyColors *)

Lemma initKeyColors_fill g :
  length (keyColor g) = 64%nat ->
  initKeyColors g = set_keyColor g (replicate 64 TFT_DARKGREY).
Proof.
  intros Hlen. unfold initKeyColors.
  change (Z.to_nat NUMBER_OF_KEYS) with 64%nat.
  pose (P := fun (i : nat) (t : Registry) =>
    t = set_keyColor g (replicate i TFT_DARKGREY ++ drop i (keyColor g))).
  assert (HP : P 64%nat
    (for_loop 64
       (fun i g0 => set_keyColor g0 (<[Z.to_nat i := TFT_DARKGREY]> (keyColor g0)))
       g)).
  { apply for_loop_inv.
    - unfold P. destruct g; reflexivity.
    - intros i t Hi ->. unfold P, set_keyColor. cbn [keyColor key modeButton difficultyButton].
      f_equal. rewrite Nat2Z.id.
      destruct (lookup_lt_is_Some_2 (keyColor g) i) as [x Hx]; [lia|].
      rewrite (drop_S _ _ _ Hx).
      rewrite insert_app_r_alt by (rewrite length_replicate; lia).
      rewrite length_replicate, Nat.sub_diag. cbn [list_insert insert].
      rewrite replicate_S_end, <- app_assoc. reflexivity. }
  unfold P in HP. rewrite HP.
  rewrite drop_ge by lia. rewrite app_nil_r. reflexivity.
Qed.

(** C7: after initKeyColors every one of the 64 entries of keyColor holds
    TFT_DARKGREY, the one colour of an unselected cell, and nothing else
    of the registry has changed. *)
Theorem initKeyColors_all_neutral g :
  length (keyColor g) = 64%nat ->
  let g' := initKeyColors g in
  (forall i, (i < 64)%nat -> keyColor g' !! i = Some TFT_DARKGREY) /\
  length (keyColor g') = 64%nat /\
  (forall i j c d, keyColor g' !! i = Some c -> keyColor g' !! j = Some d -> c = d) /\
  key g' = key g /\ modeButton g' = modeButton g /\
  difficultyButton g' = difficultyButton g.
Proof.
  intros Hlen g'. subst g'. rewrite (initKeyColors_fill g Hlen).
  cbn [set_keyColor keyColor key modeButton difficultyButton].
  repeat split.
  - intros i Hi. apply lookup_replicate_2. exact Hi.
  - intros i j c d Hc Hd.
    apply lookup_replicate_1 in Hc. apply lookup_replicate_1 in Hd.
    destruct Hc as [-> _], Hd as [-> _]. reflexivity.
Qed.

(** *** drawKeypad *)

Lemma drawKey_next g (r c : nat) :
  length (key g) = 64%nat -> (r < 8)%nat -> (c < 8)%nat ->
  drawKey (Z.of_nat r) (Z.of_nat c) (keypad_after g (8 * r + c))
  = keypad_after g (S (8 * r + c)).
Proof.
  intros Hlen Hr Hc. unfold keypad_after, drawKey.
  set (k := (8 * r + c)%nat).
  assert (Hb : to_uint8 (Z.of_nat c + Z.of_nat r * 8) = Z.of_nat k)
    by (rewrite to_uint8_small; lia).
  rewrite Hb, Nat2Z.id.
  assert (Hcell :
    initButton (KEY_X + Z.of_nat c * (KEY_W + KEY_SPACING_X))
               (KEY_Y + Z.of_nat r * (KEY_H + KEY_SPACING_Y))
               KEY_W KEY_H TFT_WHITE
               (keyColor_at
                  (set_key g (map (grid_cell (keyColor g)) (seq 0 k)
                              ++ drop k (key g))) (Z.of_nat k))
               TFT_WHITE EmptyString 1
    = grid_cell (keyColor g) k).
  { unfold grid_cell, keyColor_at. cbn [set_key keyColor]. rewrite Nat2Z.id.
    replace (Z.of_nat k / 8) with (Z.of_nat r)
      by (subst k; Z.to_euclidean_division_equations; lia).
    replace (Z.of_nat k mod 8) with (Z.of_nat c)
      by (subst k; Z.to_euclidean_division_equations; lia).
    reflexivity. }
  rewrite Hcell. clear Hcell Hb.
  assert (Hlk : length (map (grid_cell (keyColor g)) (seq 0 k)) = k)
    by (rewrite length_map, length_seq; reflexivity).
  destruct (lookup_lt_is_Some_2 (key g) k) as [x Hx]; [lia|].
  assert (Hins :
    <[k := grid_cell (keyColor g) k]>
      (map (grid_cell (keyColor g)) (seq 0 k) ++ drop k (key g))
    = map (grid_cell (keyColor g)) (seq 0 (S k)) ++ drop (S k) (key g)).
  { rewrite insert_app_r_alt by lia.
    rewrite Hlk, Nat.sub_diag, (drop_S _ _ _ Hx). cbn [list_insert insert].
    rewrite seq_S, map_app, <- app_assoc. reflexivity. }
  cbn [set_key keyColor key modeButton difficultyButton].
  unfold button_at. rewrite Nat2Z.id, list_lookup_insert_eq
    by (rewrite length_app, Hlk, length_drop; lia).
  rewrite Hins. f_equal.
  rewrite seq_S, map_app. reflexivity.
Qed.

Lemma drawKeypad_result g :
  length (key g) = 64%nat ->
  drawKeypad g =
  (set_key g (map (grid_cell (keyColor g)) (seq 0 64)),
   map (fun b => EvDrawButton (Key_ref (Z.of_nat b)) (grid_cell (keyColor g) b))
       (seq 0 64)).
Proof.
  intros Hlen. unfold drawKeypad.
  assert (Hrows :
    for_loop 8 (fun row => for_loop 8 (fun col => drawKey row col)) (g, [])
    = keypad_after g 64).
  { apply (for_loop_inv (fun r t => t = keypad_after g (8 * r))).
    - unfold keypad_after. cbn [seq map app drop]. destruct g; reflexivity.
    - intros r t Hr ->.
      replace (8 * S r)%nat with (8 * r + 8)%nat by lia.
      apply (for_loop_inv (fun c t => t = keypad_after g (8 * r + c))).
      + rewrite Nat.add_0_r. reflexivity.
      + intros c t Hc ->. rewrite drawKey_next by assumption.
        f_equal. lia. }
  rewrite Hrows. unfold keypad_after.
  rewrite drop_ge by lia. rewrite app_nil_r. reflexivity.
Qed.

Lemma grid_cell_fields kc b :
  (b < 64)%nat ->
  btn_x (grid_cell kc b) = 15 + (Z.of_nat b mod 8) * 30 /\
  btn_y (grid_cell kc b) = 15 + (Z.of_nat b / 8) * 30 /\
  btn_w (grid_cell kc b) = 25 /\ btn_h (grid_cell kc b) = 25 /\
  btn_fill (grid_cell kc b) = default 0 (kc !! b).
Proof.
  intros Hb. unfold grid_cell, initButton.
  cbn [btn_x btn_y btn_w btn_h btn_fill].
  unfold KEY_X, KEY_Y, KEY_W, KEY_H, KEY_SPACING_X, KEY_SPACING_Y.
  rewrite !to_int16_small by (Z.to_euclidean_division_equations; lia).
  repeat split; reflexivity.
Qed.

Lemma lookup_map_seq {A} (f : nat -> A) n i x :
  map f (seq 0 n) !! i = Some x -> (i < n)%nat /\ x = f i.
Proof.
  change (map f (seq 0 n)) with (f <$> seq 0 n).
  rewrite list_lookup_fmap. intros Hx.
  destruct (seq 0 n !! i) as [j|] eqn:Hj; [|discriminate].
  apply lookup_seq in Hj as [-> Hi]. injection Hx as <-. split; [exact Hi | reflexivity].
Qed.

Lemma drawn_keys (f : nat -> LGFX_Button) l :
  drawn (map (fun b => EvDrawButton (Key_ref (Z.of_nat b)) (f b)) l)
  = map (fun b => Key_ref (Z.of_nat b)) l.
Proof.
  induction l as [|b l IH]; [reflexivity|].
  cbn [map drawn flat_map app]. f_equal. exact IH.
Qed.

Lemma grid_cells_apart kc i j :
  (i < 64)%nat -> (j < 64)%nat -> i <> j ->
  ~ overlap (grid_cell kc i) (grid_cell kc j) /\
  ~ overlap_corner (grid_cell kc i) (grid_cell kc j).
Proof.
  intros Hi Hj Hne.
  destruct (grid_cell_fields kc i Hi) as (Hxi & Hyi & Hwi & Hhi & _).
  destruct (grid_cell_fields kc j Hj) as (Hxj & Hyj & Hwj & Hhj & _).
  unfold overlap, overlap_corner, btn_left, btn_top.
  rewrite Hxi, Hyi, Hwi, Hhi, Hxj, Hyj, Hwj, Hhj.
  change (Z.shiftr 25 1) with 12.
  split; intros (H1 & H2 & H3 & H4);
    apply Hne; Z.to_euclidean_division_equations; lia.
Qed.

(** C6: drawKeypad initialises 64 descriptors.  The cell at (row, col),
    row and col in 0..7, is key[row*8+col]; it gets the position
    (KEY_X + col*(KEY_W+KEY_SPACING_X), KEY_Y + row*(KEY_H+KEY_SPACING_Y))
    = (15 + col*30, 15 + row*30), width 25 and height 25.  The indices
    handled are 0, 1, ..., 63, each once, and no two of the 64 rectangles
    share a pixel. *)
Theorem drawKeypad_grid g :
  length (key g) = 64%nat ->
  let g' := fst (drawKeypad g) in
  let tr := snd (drawKeypad g) in
  length (key g') = 64%nat /\
  drawn tr = map (fun b => Key_ref (Z.of_nat b)) (seq 0 64) /\
  NoDup (drawn tr) /\
  (forall row col, 0 <= row < 8 -> 0 <= col < 8 ->
     let b := to_uint8 (col + row * 8) in
     b = row * 8 + col /\ 0 <= b < 64 /\
     exists btn,
       key g' !! Z.to_nat b = Some btn /\
       btn_x btn = KEY_X + col * (KEY_W + KEY_SPACING_X) /\
       btn_y btn = KEY_Y + row * (KEY_H + KEY_SPACING_Y) /\
       btn_x btn = 15 + col * 30 /\ btn_y btn = 15 + row * 30 /\
       btn_w btn = 25 /\ btn_h btn = 25 /\
       btn_fill btn = keyColor_at g b) /\
  (forall row col row' col',
     0 <= row < 8 -> 0 <= col < 8 -> 0 <= row' < 8 -> 0 <= col' < 8 ->
     to_uint8 (col + row * 8) = to_uint8 (col' + row' * 8) ->
     row = row' /\ col = col') /\
  (forall i j bi bj,
     key g' !! i = Some bi -> key g' !! j = Some bj -> i <> j ->
     ~ overlap bi bj /\ ~ overlap_corner bi bj).
Proof.
  intros Hlen g' tr. subst g' tr. rewrite (drawKeypad_result g Hlen).
  cbn [fst snd set_key key]. rewrite drawn_keys.
  split; [reflexivity|]. split; [reflexivity|]. split.
  { change (NoDup ((fun b => Key_ref (Z.of_nat b)) <$> seq 0 64)).
    apply NoDup_fmap_2; [|apply NoDup_seq].
    intros a b Hab. injection Hab. lia. }
  split; [|split].
  - intros row col Hrow Hcol.
    rewrite to_uint8_small by lia.
    split; [lia|]. split; [lia|].
    exists (grid_cell (keyColor g) (Z.to_nat (col + row * 8))).
    assert (Hb : (Z.to_nat (col + row * 8) < 64)%nat) by lia.
    destruct (grid_cell_fields (keyColor g) _ Hb) as (Hx & Hy & Hw & Hh & Hf).
    rewrite Hx, Hy, Hw, Hf, Z2Nat.id by lia.
    replace ((col + row * 8) mod 8) with col
      by (Z.to_euclidean_division_equations; lia).
    replace ((col + row * 8) / 8) with row
      by (Z.to_euclidean_division_equations; lia).
    unfold KEY_X, KEY_Y, KEY_W, KEY_H, KEY_SPACING_X, KEY_SPACING_Y.
    repeat split; try reflexivity; try exact Hh.
    change (map (grid_cell (keyColor g)) (seq 0 64))
      with (grid_cell (keyColor g) <$> seq 0 64).
    rewrite list_lookup_fmap, lookup_seq_lt by exact Hb. reflexivity.
  - intros row col row' col' Hr Hc Hr' Hc'.
    rewrite !to_uint8_small by lia. lia.
  - intros i j bi bj Hbi Hbj Hne.
    apply lookup_map_seq in Hbi as [Hi ->].
    apply lookup_map_seq in Hbj as [Hj ->].
    apply grid_cells_apart; assumption.
Qed.

(** *** drawModeButtons *)

(** C9: the two mode buttons are built from the constants 60 and 180 for
    x, the common y 140, width 110 and height 40, none of which involves
    the row or column of the grid formula, and their rectangles share no
    pixel. *)
Theorem mode_buttons_fixed_and_apart g :
  length (modeButton g) = 2%nat ->
  let g' := fst (drawModeButtons g) in
  let tr := snd (drawModeButtons g) in
  exists b0 b1,
    modeButton g' = [b0; b1] /\
    drawn tr = [ModeButton_ref 0; ModeButton_ref 1] /\
    btn_x b0 = 60 /\ btn_x b1 = 180 /\
    btn_y b0 = 140 /\ btn_y b1 = 140 /\
    btn_w b0 = 110 /\ btn_w b1 = 110 /\
    btn_h b0 = 40 /\ btn_h b1 = 40 /\
    ~ overlap b0 b1 /\ ~ overlap_corner b0 b1 /\
    key g' = key g /\ keyColor g' = keyColor g.
Proof.
  intros Hlen g' tr. subst g' tr.
  destruct g as [kc k mb db]. cbn [modeButton] in Hlen.
  destruct mb as [|m0 [|m1 [|m2 mb]]]; try discriminate.
  eexists _, _. split; [reflexivity|].
  repeat split; try reflexivity.
  - unfold overlap, btn_left, btn_top. cbn [btn_x btn_y btn_w btn_h].
    vm_compute. intros (H1 & H2 & H3 & H4). discriminate.
  - unfold overlap_corner. cbn [btn_x btn_y btn_w btn_h].
    vm_compute. intros (H1 & H2 & H3 & H4). discriminate.
Qed.
End Registry.

(** ** The UI flags *)

(** C8: the mode machine starts in Settings: the initialiser of
    isSettingsMode is true, and the system does not wait for a human move,
    nor is any button recorded as touched. *)
Theorem initial_mode_is_settings :
  currentMode initial_ui = Settings /\
  isSettingsMode initial_ui = true /\
  isWaitingForHumanMove initial_ui = false /\
  isButtonTouched initial_ui = false /\
  touchedButton initial_ui = -1.
Proof. repeat split; reflexivity. Qed.

(** ** Concrete runs *)

(** C1 on a device that holds the sample record. *)
Lemma stored_record_applied_untouched_witness :
  fs calibrated_world !! CALIBRATION_FILE = Some sample_record /\
  open_r_ok sample_env = true /\
  length (take (Nat.min 16 (read_avail sample_env)) sample_record) = 16%nat /\
  applied (trace (@touch_calibrate_LovyanGFX sample_colors false sample_env
                    calibrated_world))
  = [words_of_bytes (take 16 sample_record)].
Proof.
  assert (H1 : fs calibrated_world !! CALIBRATION_FILE = Some sample_record)
    by (vm_compute; reflexivity).
  assert (H2 : open_r_ok sample_env = true) by reflexivity.
  assert (H3 : length (take (Nat.min 16 (read_avail sample_env)) sample_record)
               = 16%nat) by reflexivity.
  split; [exact H1|]. split; [exact H2|]. split; [exact H3|].
  exact (proj1 (@stored_record_applied_untouched sample_colors sample_env
                  calibrated_world sample_record H1 H2 H3)).
Defined.

(** C2 as stated fails here, three times over, with REPEAT_CAL true and a
    calibration file in place.  When the open for writing fails the
    acquired record is written nowhere.  When the remove fails as well,
    the file is not deleted either: it keeps its prior content.  When the
    flash stores only 10 of the 16 bytes, the file does not hold the
    acquired record. *)
Lemma forced_recalibration_unwritten :
  (let r := @touch_calibrate_LovyanGFX sample_colors true
              (with_open_w sample_env false) calibrated_world in
   acquired (trace r) = [sample_coefficients] /\
   calls is_remove (trace r) = 1%nat /\
   written (trace r) = [] /\
   written (trace r) <> [value r] /\
   fs (world r) !! CALIBRATION_FILE = None) /\
  (let r := @touch_calibrate_LovyanGFX sample_colors true
              (with_remove_ok (with_open_w sample_env false) false)
              (set_fs blank_world
                 {[ CALIBRATION_FILE := bytes_of_words [1; 2; 3; 4; 5; 6; 7; 8] ]}) in
   acquired (trace r) = [sample_coefficients] /\
   calls is_remove (trace r) = 1%nat /\
   written (trace r) = [] /\
   fs (world r) !! CALIBRATION_FILE
   = Some (bytes_of_words [1; 2; 3; 4; 5; 6; 7; 8])) /\
  (let r := @touch_calibrate_LovyanGFX sample_colors true
              (with_write_avail sample_env 10) calibrated_world in
   acquired (trace r) = [sample_coefficients] /\
   written (trace r) = [value r] /\
   fs (world r) !! CALIBRATION_FILE = Some (take 10 (value r)) /\
   fs (world r) !! CALIBRATION_FILE <> Some (value r)).
Proof.
  vm_compute. repeat split; try reflexivity; discriminate.
Qed.

(** C3 on a first boot. *)
Lemma missing_or_short_record_reacquired_witness :
  (fs blank_world !! CALIBRATION_FILE = None \/
   (exists content,
      fs blank_world !! CALIBRATION_FILE = Some content /\
      (open_r_ok sample_env = false \/
       (length (take (Nat.min 16 (read_avail sample_env)) content) < 16)%nat))) /\
  calls is_calibrateTouch
    (trace (@touch_calibrate_LovyanGFX sample_colors false sample_env
              blank_world)) = 1%nat.
Proof.
  assert (H1 : fs blank_world !! CALIBRATION_FILE = None)
    by (vm_compute; reflexivity).
  split; [left; exact H1|].
  exact (proj1 (@missing_or_short_record_reacquired sample_colors false
                  sample_env blank_world (or_introl H1))).
Defined.

(** C5 on a first boot whose open for writing fails. *)
Lemma failed_write_keeps_record_witness :
  (false = true \/ stored_record (with_open_w sample_env false) blank_world = None) /\
  open_w_ok (with_open_w sample_env false) = false /\
  calls is_write
    (trace (@touch_calibrate_LovyanGFX sample_colors false
              (with_open_w sample_env false) blank_world)) = 0%nat.
Proof.
  assert (H1 : stored_record (with_open_w sample_env false) blank_world = None)
    by (vm_compute; reflexivity).
  assert (H2 : open_w_ok (with_open_w sample_env false) = false) by reflexivity.
  split; [right; exact H1|]. split; [exact H2|].
  exact (proj1 (@failed_write_keeps_record sample_colors false
                  (with_open_w sample_env false) blank_world
                  (or_intror H1) H2)).
Defined.

(** C6, C7 and C9 on the registry as declared. *)
Lemma drawKeypad_grid_witness :
  length (key blank_registry) = 64%nat /\
  length (key (fst (@drawKeypad sample_colors blank_registry))) = 64%nat.
Proof.
  assert (H1 : length (key blank_registry) = 64%nat) by reflexivity.
  split; [exact H1|].
  exact (proj1 (@drawKeypad_grid sample_colors blank_registry H1)).
Defined.

Lemma initKeyColors_all_neutral_witness :
  length (keyColor blank_registry) = 64%nat /\
  length (keyColor (@initKeyColors sample_colors blank_registry)) = 64%nat.
Proof.
  assert (H1 : length (keyColor blank_registry) = 64%nat) by reflexivity.
  split; [exact H1|].
  exact (proj1 (proj2 (@initKeyColors_all_neutral sample_colors
                         blank_registry H1))).
Defined.

Lemma mode_buttons_fixed_and_apart_witness :
  length (modeButton blank_registry) = 2%nat /\
  exists b0 b1,
    modeButton (fst (@drawModeButtons sample_colors blank_registry)) = [b0; b1] /\
    btn_x b0 = 60 /\ btn_x b1 = 180.
Proof.
  assert (H1 : length (modeButton blank_registry) = 2%nat) by reflexivity.
  split; [exact H1|].
  destruct (@mode_buttons_fixed_and_apart sample_colors blank_registry H1)
    as (b0 & b1 & Hm & _ & Hx0 & Hx1 & _).
  exists b0, b1. repeat split; assumption.
Defined.

(* ================================================================== *)
(** * Further properties *)

(** ** The persisted format *)

Lemma byte_of_to_Z b : byte_of_Z (byte_to_Z b) = b.
Proof.
  unfold byte_of_Z. pose proof (byte_to_Z_range b) as Hb.
  rewrite Z.mod_small by lia. unfold byte_to_Z.
  rewrite N2Z.id, Byte.of_to_N. reflexivity.
Qed.

Lemma byte_of_Z_mod z : byte_of_Z (z mod 256) = byte_of_Z z.
Proof. unfold byte_of_Z. rewrite Z.mod_mod by lia. reflexivity. Qed.

Lemma bytes_of_u16_of_bytes lo hi :
  bytes_of_u16 (u16_of_bytes lo hi) = [lo; hi].
Proof.
  pose proof (byte_to_Z_range lo) as Hlo.
  pose proof (byte_to_Z_range hi) as Hhi.
  unfold bytes_of_u16, u16_of_bytes. rewrite lor_low_high by lia.
  f_equal; [|f_equal].
  - rewrite <- byte_of_Z_mod.
    replace ((byte_to_Z lo + 256 * byte_to_Z hi) mod 256) with (byte_to_Z lo)
      by (Z.to_euclidean_division_equations; lia).
    apply byte_of_to_Z.
  - rewrite to_uint16_small by lia.
    rewrite Z.shiftr_div_pow2 by lia. change (2 ^ 8) with 256.
    replace ((byte_to_Z lo + 256 * byte_to_Z hi) / 256) with (byte_to_Z hi)
      by (Z.to_euclidean_division_equations; lia).
    apply byte_of_to_Z.
Qed.

Lemma bytes_of_words_of_bytes buf :
  Nat.even (length buf) = true ->
  bytes_of_words (words_of_bytes buf) = buf.
Proof.
  revert buf. fix IH 1. intros [|lo [|hi rest]] Hev.
  - reflexivity.
  - discriminate.
  - cbn [words_of_bytes bytes_of_words flat_map].
    rewrite bytes_of_u16_of_bytes. cbn [app]. do 2 f_equal.
    apply IH. exact Hev.
Qed.

(** X1: a buffer of 16 bytes read as eight uint16 values and stored back
    as bytes is the same buffer: a record loaded from the file can be
    written back without loss. *)
Theorem record_bytes_survive_decoding buf :
  length buf = 16%nat ->
  bytes_of_words (words_of_bytes buf) = buf /\
  length (words_of_bytes buf) = 8%nat.
Proof.
  intros Hlen. split.
  - apply bytes_of_words_of_bytes. rewrite Hlen. reflexivity.
  - rewrite length_words_of_bytes, Hlen. reflexivity.
Qed.

(** X2: eight coefficients that fit in 16 bits, stored as bytes and read
    back as uint16 values, are the same coefficients, and they take
    exactly 16 bytes. *)
Theorem coefficients_survive_encoding ws :
  length ws = 8%nat ->
  Forall (fun c => 0 <= c < 65536) ws ->
  words_of_bytes (bytes_of_words ws) = ws /\
  length (bytes_of_words ws) = 16%nat.
Proof.
  intros Hlen Hrange. split.
  - rewrite words_of_bytes_of_words. clear Hlen.
    induction Hrange as [|c ws Hc _ IH]; [reflexivity|].
    cbn [map]. rewrite to_uint16_small by exact Hc. f_equal. exact IH.
  - do 9 (destruct ws as [|? ws]; try discriminate). reflexivity.
Qed.

Section CalibrationAcrossBoots.
Context `{LGFX_colors}.

Lemma stored_record_after_write e (rec : list byte)
    (f : gmap string (list byte)) h pc :
  open_r_ok e = true -> (16 <= read_avail e)%nat -> length rec = 16%nat ->
  stored_record e
    {| fs := <[CALIBRATION_FILE := rec]> f; handles := h; panel_cal := pc |}
  = Some rec.
Proof.
  intros Ho Ha Hl. unfold stored_record. cbn [fs].
  rewrite lookup_insert_eq, Ho.
  replace (Nat.min 16 (read_avail e)) with 16%nat by lia.
  rewrite take_ge by lia. rewrite Hl. reflexivity.
Qed.

(** X3: when a run has gone through calibrateTouch, its open for writing
    succeeded and the flash stored all 16 bytes of the write, the next
    boot with REPEAT_CAL false, on a flash that opens and delivers 16
    bytes, hands exactly the acquired coefficients to setTouchCalibrate
    and neither calls calibrateTouch nor writes nor removes anything. *)
Theorem acquired_record_survives_reboot rc e1 e2 w :
  rc = true \/ stored_record e1 w = None ->
  open_w_ok e1 = true ->
  (16 <= write_avail e1)%nat ->
  open_r_ok e2 = true ->
  (16 <= read_avail e2)%nat ->
  let r1 := touch_calibrate_LovyanGFX rc e1 w in
  let r2 := touch_calibrate_LovyanGFX false e2 (world r1) in
  applied (trace r2) = acquired (trace r1) /\
  applied (trace r2) = [touch_record e1] /\
  value r2 = value r1 /\
  calls is_calibrateTouch (trace r2) = 0%nat /\
  calls is_write (trace r2) = 0%nat /\
  calls is_remove (trace r2) = 0%nat /\
  fs (world r2) = fs (world r1) /\
  panel_cal (world r2) = Some (touch_record e1).
Proof.
  intros Hc Hw Hall Ho Ha r1 r2. subst r1 r2.
  rewrite (run_acquire rc e1 w Hc). cbn [world]. rewrite Hw.
  rewrite (take_ge (bytes_of_words (touch_record e1)))
    by (rewrite length_touch_bytes; exact Hall).
  erewrite run_stored
    by (apply stored_record_after_write; [exact Ho | exact Ha | reflexivity]).
  cbn [trace value world set_panel_cal fs panel_cal].
  rewrite touch_record_words.
  destruct (bool_decide (is_Some (fs w !! CALIBRATION_FILE)));
    destruct rc; destruct (open_r_ok e1); repeat split; reflexivity.
Qed.

Lemma short_on_flash_no_record e w :
  short_on_flash w -> stored_record e w = None.
Proof.
  unfold short_on_flash, stored_record.
  destruct (fs w !! CALIBRATION_FILE) as [content|]; [|reflexivity].
  intros Hshort. destruct (open_r_ok e); [|reflexivity].
  destruct (Nat.eqb_spec (length (take (Nat.min 16 (read_avail e)) content)) 16)
    as [Heq|]; [|reflexivity].
  rewrite length_take in Heq. lia.
Qed.

(** X4: when a run has gone through calibrateTouch but its open for
    writing failed, and either REPEAT_CAL was set and the remove succeeded,
    or the flash held no full record, the flash holds no full record
    afterwards, so the next boot calls calibrateTouch again, whatever the
    hardware then answers. *)
Theorem failed_persist_reacquires_next_boot rc e1 e2 w :
  (rc = true /\ remove_ok e1 = true) \/ short_on_flash w ->
  open_w_ok e1 = false ->
  let r1 := touch_calibrate_LovyanGFX rc e1 w in
  let r2 := touch_calibrate_LovyanGFX false e2 (world r1) in
  short_on_flash (world r1) /\
  calls is_calibrateTouch (trace r1) = 1%nat /\
  calls is_calibrateTouch (trace r2) = 1%nat /\
  calls is_setTouchCalibrate (trace r2) = 0%nat.
Proof.
  intros Hc Hw r1 r2. subst r1 r2.
  assert (Hacq : rc = true \/ stored_record e1 w = None).
  { destruct Hc as [[Hc _]|Hc]; [left; exact Hc|].
    right. apply short_on_flash_no_record, Hc. }
  rewrite (run_acquire rc e1 w Hacq). cbn [world trace]. rewrite Hw.
  set (w1 := {| fs := if rc && remove_ok e1
                      then delete CALIBRATION_FILE (fs w) else fs w;
                handles := handles w;
                panel_cal := Some (touch_record e1) |}).
  assert (Hshort : short_on_flash w1).
  { unfold short_on_flash, w1. cbn [fs].
    destruct Hc as [[-> ->]|Hc].
    - cbn [andb]. rewrite lookup_delete_eq. exact I.
    - destruct (rc && remove_ok e1); [|exact Hc].
      rewrite lookup_delete_eq. exact I. }
  rewrite (run_acquire false e2 w1)
    by (right; apply short_on_flash_no_record, Hshort).
  cbn [trace]. split; [exact Hshort|].
  destruct (bool_decide (is_Some (fs w !! CALIBRATION_FILE)));
    destruct (bool_decide (is_Some (fs w1 !! CALIBRATION_FILE)));
    destruct rc; destruct (open_r_ok e1); destruct (open_r_ok e2);
    destruct (open_w_ok e2); repeat split; reflexivity.
Qed.

(** X5: on a device that holds a full record, with REPEAT_CAL false, a
    second call does exactly what the first did: same calls, same result,
    same world. *)
Theorem stored_run_repeats e w rec :
  stored_record e w = Some rec ->
  let r1 := touch_calibrate_LovyanGFX false e w in
  touch_calibrate_LovyanGFX false e (world r1) = r1.
Proof.
  intros Hs r1. subst r1.
  rewrite (run_stored e w rec Hs). cbn [world].
  assert (Hs' : stored_record e (set_panel_cal w (Some (words_of_bytes rec)))
                = Some rec) by exact Hs.
  rewrite (run_stored e _ rec Hs'). reflexivity.
Qed.

(** X6: no file other than the calibration file is ever created, changed
    or removed. *)
Theorem other_files_untouched rc e w path :
  path <> CALIBRATION_FILE ->
  fs (world (touch_calibrate_LovyanGFX rc e w)) !! path = fs w !! path.
Proof.
  intros Hne.
  destruct rc; [|destruct (stored_record e w) as [rec|] eqn:Hs].
  - rewrite (run_acquire true e w) by (left; reflexivity). cbn [world fs andb].
    destruct (open_w_ok e); destruct (remove_ok e);
      rewrite ?lookup_insert_ne, ?lookup_delete_ne by congruence; reflexivity.
  - rewrite (run_stored e w rec Hs). reflexivity.
  - rewrite (run_acquire false e w) by (right; exact Hs). cbn [world fs].
    destruct (open_w_ok e);
      rewrite ?lookup_insert_ne by congruence; reflexivity.
Qed.

(** X7: with REPEAT_CAL false, a run whose open for writing fails leaves
    the whole file system as it found it; an unreadable or short
    calibration file stays in place. *)
Theorem failed_write_leaves_flash e w :
  open_w_ok e = false ->
  fs (world (touch_calibrate_LovyanGFX false e w)) = fs w.
Proof.
  intros Hw. destruct (stored_record e w) as [rec|] eqn:Hs.
  - rewrite (run_stored e w rec Hs). reflexivity.
  - rewrite (run_acquire false e w) by (right; exact Hs). cbn [world fs].
    rewrite Hw. reflexivity.
Qed.

(** X8: what the uninitialised array calData holds on entry never shows:
    calls, arguments, result and final world are the same for any such
    content, also after a short read that filled only part of the array
    (calibrateTouch, as modelled, sets all eight slots). *)
Theorem stack_content_never_shows rc e junk w :
  touch_calibrate_LovyanGFX rc (with_stack_junk e junk) w
  = touch_calibrate_LovyanGFX rc e w.
Proof.
  destruct rc; [|destruct (stored_record e w) as [rec|] eqn:Hs].
  - rewrite (run_acquire true e w), (run_acquire true (with_stack_junk e junk) w)
      by (left; reflexivity).
    reflexivity.
  - assert (Hs' : stored_record (with_stack_junk e junk) w = Some rec) by exact Hs.
    rewrite (run_stored e w rec Hs), (run_stored _ w rec Hs'). reflexivity.
  - assert (Hs' : stored_record (with_stack_junk e junk) w = None) by exact Hs.
    rewrite (run_acquire false e w), (run_acquire false (with_stack_junk e junk) w)
      by (right; assumption).
    reflexivity.
Qed.

(** X9: the red warning about REPEAT_CAL is printed exactly once when the
    flag is set and never when it is not. *)
Theorem repeat_warning_iff_flag rc e w :
  calls is_repeat_warning (trace (touch_calibrate_LovyanGFX rc e w))
  = if rc then 1%nat else 0%nat.
Proof.
  destruct rc; [|destruct (stored_record e w) as [rec|] eqn:Hs].
  - rewrite (run_acquire true e w) by (left; reflexivity). cbn [trace].
    destruct (bool_decide (is_Some (fs w !! CALIBRATION_FILE)));
      destruct (open_w_ok e); reflexivity.
  - rewrite (run_stored e w rec Hs). reflexivity.
  - rewrite (run_acquire false e w) by (right; exact Hs). cbn [trace].
    destruct (bool_decide (is_Some (fs w !! CALIBRATION_FILE)));
      destruct (open_r_ok e); destruct (open_w_ok e); reflexivity.
Qed.

(** X10: the coefficients reported on Serial are exactly those
    calibrateTouch produced (none on a run that takes the stored record),
    and every record written to the file decodes to them. *)
Theorem report_matches_acquisition rc e w :
  let r := touch_calibrate_LovyanGFX rc e w in
  reported (trace r) = acquired (trace r) /\
  map words_of_bytes (written (trace r))
  = if open_w_ok e then acquired (trace r) else [].
Proof.
  intros r. subst r.
  destruct rc; [|destruct (stored_record e w) as [rec|] eqn:Hs].
  - rewrite (run_acquire true e w) by (left; reflexivity). cbn [trace].
    destruct (bool_decide (is_Some (fs w !! CALIBRATION_FILE)));
      destruct (open_w_ok e);
      cbn [app written flat_map map]; rewrite ?touch_record_words;
      split; reflexivity.
  - rewrite (run_stored e w rec Hs). cbn [trace].
    destruct (open_w_ok e); split; reflexivity.
  - rewrite (run_acquire false e w) by (right; exact Hs). cbn [trace].
    destruct (bool_decide (is_Some (fs w !! CALIBRATION_FILE)));
      destruct (open_r_ok e); destruct (open_w_ok e);
      cbn [app written flat_map map]; rewrite ?touch_record_words;
      split; reflexivity.
Qed.

(** X21: when a run has gone through calibrateTouch and its open for
    writing succeeded, but the flash stored fewer than 16 bytes of the
    write, the file holds less than a record and the next boot calls
    calibrateTouch again, whatever the hardware then answers. *)
Theorem short_write_reacquires_next_boot rc e1 e2 w :
  rc = true \/ stored_record e1 w = None ->
  open_w_ok e1 = true ->
  (write_avail e1 < 16)%nat ->
  let r1 := touch_calibrate_LovyanGFX rc e1 w in
  let r2 := touch_calibrate_LovyanGFX false e2 (world r1) in
  written (trace r1) = [value r1] /\
  fs (world r1) !! CALIBRATION_FILE = Some (take (write_avail e1) (value r1)) /\
  short_on_flash (world r1) /\
  calls is_calibrateTouch (trace r2) = 1%nat /\
  calls is_setTouchCalibrate (trace r2) = 0%nat.
Proof.
  intros Hc Hw Hlt r1 r2. subst r1 r2.
  rewrite (run_acquire rc e1 w Hc). cbn [world trace value]. rewrite Hw.
  set (w1 := {| fs := <[CALIBRATION_FILE :=
                          take (write_avail e1)
                               (bytes_of_words (touch_record e1))]>
                        (if rc && remove_ok e1
                         then delete CALIBRATION_FILE (fs w) else fs w);
                handles := handles w;
                panel_cal := Some (touch_record e1) |}).
  assert (Hshort : short_on_flash w1).
  { unfold short_on_flash, w1. cbn [fs]. rewrite lookup_insert_eq.
    rewrite length_take. lia. }
  rewrite (run_acquire false e2 w1)
    by (right; apply short_on_flash_no_record, Hshort).
  cbn [trace]. split; [|split; [|split; [exact Hshort|]]].
  - destruct (bool_decide (is_Some (fs w !! CALIBRATION_FILE)));
      destruct rc; destruct (open_r_ok e1); reflexivity.
  - unfold w1. cbn [fs]. apply lookup_insert_eq.
  - destruct (bool_decide (is_Some (fs w1 !! CALIBRATION_FILE)));
      destruct (open_r_ok e2); destruct (open_w_ok e2);
      split; reflexivity.
Qed.

(** X22: with REPEAT_CAL true, when both the remove and the open for
    writing fail, the old file survives the recalibration: the panel holds
    the freshly acquired record on return, but the next boot with
    REPEAT_CAL false, reading a full record from that file, puts the old
    record in force without calling calibrateTouch. *)
Theorem failed_remove_keeps_old_record e1 e2 w old :
  remove_ok e1 = false ->
  open_w_ok e1 = false ->
  stored_record e2 w = Some old ->
  let r1 := touch_calibrate_LovyanGFX true e1 w in
  let r2 := touch_calibrate_LovyanGFX false e2 (world r1) in
  fs (world r1) = fs w /\
  panel_cal (world r1) = Some (touch_record e1) /\
  applied (trace r2) = [words_of_bytes old] /\
  calls is_calibrateTouch (trace r2) = 0%nat /\
  panel_cal (world r2) = Some (words_of_bytes old).
Proof.
  intros Hr Hw Hs r1 r2. subst r1 r2.
  rewrite (run_acquire true e1 w) by (left; reflexivity).
  cbn [world fs panel_cal andb]. rewrite Hr, Hw.
  set (w1 := {| fs := fs w; handles := handles w;
                panel_cal := Some (touch_record e1) |}).
  assert (Hs1 : stored_record e2 w1 = Some old) by exact Hs.
  rewrite (run_stored e2 w1 old Hs1).
  cbn [trace world set_panel_cal panel_cal].
  repeat split; reflexivity.
Qed.
End CalibrationAcrossBoots.

Section RegistryComposed.
Context `{LGFX_colors}.

Lemma drawKeypad_key g i btn :
  length (key g) = 64%nat ->
  key (fst (drawKeypad g)) !! i = Some btn ->
  (i < 64)%nat /\ btn = grid_cell (keyColor g) i.
Proof.
  intros Hlen. rewrite (drawKeypad_result g Hlen). cbn [fst set_key key].
  apply lookup_map_seq.
Qed.

(** X11: after initKeyColors followed by drawKeypad every key button has
    the fill colour TFT_DARKGREY, a white outline, white text, an empty
    label and text size 1, whatever the colour table held before. *)
Theorem fresh_keypad_is_uniform g i btn :
  length (keyColor g) = 64%nat ->
  length (key g) = 64%nat ->
  key (fst (drawKeypad (initKeyColors g))) !! i = Some btn ->
  btn_fill btn = TFT_DARKGREY /\
  btn_outline btn = TFT_WHITE /\
  btn_textcolor btn = TFT_WHITE /\
  btn_label btn = EmptyString /\
  btn_textsize btn = 1.
Proof.
  intros Hkc Hk Hbtn.
  rewrite (initKeyColors_fill g Hkc) in Hbtn.
  apply drawKeypad_key in Hbtn as [Hi ->]; [|exact Hk].
  unfold grid_cell, initButton.
  cbn [btn_fill btn_outline btn_textcolor btn_label btn_textsize
       set_keyColor keyColor].
  rewrite (lookup_replicate_2 64 TFT_DARKGREY i Hi).
  repeat split; reflexivity.
Qed.

(** X12: drawKeypad changes the key array only: the colour table, the
    mode buttons and the difficulty buttons are as before. *)
Theorem drawKeypad_touches_keys_only g :
  length (key g) = 64%nat ->
  let g' := fst (drawKeypad g) in
  keyColor g' = keyColor g /\
  modeButton g' = modeButton g /\
  difficultyButton g' = difficultyButton g.
Proof.
  intros Hlen g'. subst g'. rewrite (drawKeypad_result g Hlen).
  repeat split; reflexivity.
Qed.

(** X13: drawing the key pad twice gives the registry and the drawing
    calls of drawing it once: the buttons depend on the colour table only,
    not on what the key array held. *)
Theorem drawKeypad_twice g :
  length (key g) = 64%nat ->
  drawKeypad (fst (drawKeypad g)) = drawKeypad g.
Proof.
  intros Hlen.
  assert (Hlen' : length (key (fst (drawKeypad g))) = 64%nat).
  { rewrite (drawKeypad_result g Hlen). cbn [fst set_key key].
    rewrite length_map, length_seq. reflexivity. }
  rewrite (drawKeypad_result _ Hlen').
  rewrite (drawKeypad_result g Hlen). reflexivity.
Qed.

(** X14: every key rectangle lies on the 240 pixel wide screen and above
    the result line at y = 244: it starts at least 3 pixels from the left
    and top edges and ends at most at pixel 238. *)
Theorem keys_fit_key_area g i btn :
  length (key g) = 64%nat ->
  key (fst (drawKeypad g)) !! i = Some btn ->
  in_key_area btn /\
  3 <= btn_left btn /\ btn_left btn + btn_w btn <= 238 /\
  3 <= btn_top btn /\ btn_top btn + btn_h btn <= 238.
Proof.
  intros Hlen Hbtn.
  apply drawKeypad_key in Hbtn as [Hi ->]; [|exact Hlen].
  destruct (grid_cell_fields (keyColor g) i Hi) as (Hx & Hy & Hw & Hh & _).
  unfold in_key_area, btn_left, btn_top, SCREEN_WIDTH, RESULT_LINE_Y.
  rewrite Hx, Hy, Hw, Hh. change (Z.shiftr 25 1) with 12.
  repeat split; Z.to_euclidean_division_equations; lia.
Qed.

(** X15: a pixel lies on at most one key, so a touch point resolves to at
    most one key index. *)
Theorem pixel_on_one_key g i j bi bj px py :
  length (key g) = 64%nat ->
  key (fst (drawKeypad g)) !! i = Some bi ->
  key (fst (drawKeypad g)) !! j = Some bj ->
  covers bi px py -> covers bj px py ->
  i = j.
Proof.
  intros Hlen Hbi Hbj Hci Hcj.
  apply drawKeypad_key in Hbi as [Hi ->]; [|exact Hlen].
  apply drawKeypad_key in Hbj as [Hj ->]; [|exact Hlen].
  destruct (decide (i = j)) as [Heq|Hne]; [exact Heq|].
  destruct (grid_cells_apart (keyColor g) i j Hi Hj Hne) as [Hno _].
  exfalso. apply Hno.
  unfold covers in Hci, Hcj. unfold overlap. lia.
Qed.

(** X16: the pixels between two neighbouring keys lie on no key: the
    keys are 25 wide on a pitch of 30, so a point whose x or y offset
    from pixel 3 is 25..29 modulo 30 is covered by none of them. *)
Theorem gap_pixels_on_no_key g i btn px py :
  length (key g) = 64%nat ->
  key (fst (drawKeypad g)) !! i = Some btn ->
  25 <= (px - 3) mod 30 \/ 25 <= (py - 3) mod 30 ->
  ~ covers btn px py.
Proof.
  intros Hlen Hbtn Hgap Hc.
  apply drawKeypad_key in Hbtn as [Hi ->]; [|exact Hlen].
  destruct (grid_cell_fields (keyColor g) i Hi) as (Hx & Hy & Hw & Hh & _).
  unfold covers, btn_left, btn_top in Hc.
  rewrite Hx, Hy, Hw, Hh in Hc. change (Z.shiftr 25 1) with 12 in Hc.
  Z.to_euclidean_division_equations; lia.
Qed.

(** X17: a point inside the grid and not in a gap lies on the key whose
    index is row * 8 + col with col = (px - 3) / 30 and
    row = (py - 3) / 30. *)
Theorem pixel_resolves_to_key g px py :
  length (key g) = 64%nat ->
  3 <= px < 243 -> 3 <= py < 243 ->
  (px - 3) mod 30 < 25 -> (py - 3) mod 30 < 25 ->
  exists btn,
    key (fst (drawKeypad g))
      !! Z.to_nat ((py - 3) / 30 * 8 + (px - 3) / 30) = Some btn /\
    covers btn px py.
Proof.
  intros Hlen Hpx Hpy Hgx Hgy.
  set (col := (px - 3) / 30). set (row := (py - 3) / 30).
  assert (Hcol : 0 <= col < 8) by (subst col; Z.to_euclidean_division_equations; lia).
  assert (Hrow : 0 <= row < 8) by (subst row; Z.to_euclidean_division_equations; lia).
  assert (Hi : (Z.to_nat (row * 8 + col) < 64)%nat) by lia.
  exists (grid_cell (keyColor g) (Z.to_nat (row * 8 + col))). split.
  - rewrite (drawKeypad_result g Hlen). cbn [fst set_key key].
    change (map (grid_cell (keyColor g)) (seq 0 64))
      with (grid_cell (keyColor g) <$> seq 0 64).
    rewrite list_lookup_fmap, lookup_seq_lt by exact Hi. reflexivity.
  - destruct (grid_cell_fields (keyColor g) _ Hi) as (Hx & Hy & Hw & Hh & _).
    unfold covers, btn_left, btn_top. rewrite Hx, Hy, Hw, Hh.
    change (Z.shiftr 25 1) with 12. rewrite Z2Nat.id by lia.
    replace ((row * 8 + col) mod 8) with col
      by (Z.to_euclidean_division_equations; lia).
    replace ((row * 8 + col) / 8) with row
      by (Z.to_euclidean_division_equations; lia).
    subst col row. Z.to_euclidean_division_equations; lia.
Qed.
End RegistryComposed.

Section ModeButtons.
Context `{LGFX_colors}.

Lemma drawModeButtons_result g m0 m1 :
  modeButton g = [m0; m1] ->
  fst (drawModeButtons g) =
  set_modeButton g
    [initButton GAME_MODE_21_X GAME_MODE_2_Y GAME_MODE_W GAME_MODE_H
       TFT_WHITE TFT_BLUE TFT_WHITE "Human-AI" 2;
     initButton GAME_MODE_22_X GAME_MODE_2_Y GAME_MODE_W GAME_MODE_H
       TFT_WHITE TFT_BLUE TFT_WHITE "AI - AI" 2].
Proof.
  intros Hm. unfold drawModeButtons. cbn [fst].
  destruct g as [kc k mb db]. cbn [modeButton] in Hm. subst mb.
  reflexivity.
Qed.

Lemma two_buttons (l : list LGFX_Button) :
  length l = 2%nat -> exists m0 m1, l = [m0; m1].
Proof.
  destruct l as [|m0 [|m1 [|m2 l]]]; try discriminate. eauto.
Qed.

(** X18: both mode buttons lie on the 240 pixel wide screen, the first
    over the columns 5..114, the second over 125..234, both over the rows
    120..159: there are 10 pixels between them, and they sit below the
    "Select Mode" caption drawn at y = 80. *)
Theorem mode_buttons_on_screen g b i :
  length (modeButton g) = 2%nat ->
  modeButton (fst (drawModeButtons g)) !! i = Some b ->
  0 <= btn_left b /\ btn_left b + btn_w b <= SCREEN_WIDTH /\
  GAME_MODE_1_Y < btn_top b /\
  btn_top b = 120 /\ btn_top b + btn_h b = 160 /\
  (i = 0%nat -> btn_left b = 5 /\ btn_left b + btn_w b = 115) /\
  (i = 1%nat -> btn_left b = 125 /\ btn_left b + btn_w b = 235).
Proof.
  intros Hlen Hb.
  destruct (two_buttons _ Hlen) as (m0 & m1 & Hm).
  rewrite (drawModeButtons_result g m0 m1 Hm) in Hb.
  cbn [set_modeButton modeButton] in Hb.
  destruct i as [|[|i]]; [| |discriminate];
    injection Hb as <-; vm_compute; repeat split; intros; discriminate.
Qed.

(** X19: each mode button shares pixels with keys of the key pad (with
    key[32] and key[36], the cells of row 4 in the columns 0 and 4):
    the settings buttons and the key pad cannot be hit-tested together. *)
Theorem mode_buttons_overlap_keys g :
  length (key g) = 64%nat ->
  length (modeButton g) = 2%nat ->
  let g' := fst (drawModeButtons (fst (drawKeypad g))) in
  exists m0 m1 k32 k36,
    modeButton g' = [m0; m1] /\
    key g' !! 32%nat = Some k32 /\ key g' !! 36%nat = Some k36 /\
    overlap m0 k32 /\ overlap m1 k36.
Proof.
  intros Hk Hm g'. subst g'.
  destruct (two_buttons _ Hm) as (m0 & m1 & Hmb).
  assert (Hmb' : modeButton (fst (drawKeypad g)) = [m0; m1]).
  { rewrite (drawKeypad_result g Hk). exact Hmb. }
  rewrite (drawModeButtons_result _ m0 m1 Hmb').
  rewrite (drawKeypad_result g Hk). cbn [fst set_modeButton set_key modeButton key].
  eexists _, _, (grid_cell (keyColor g) 32), (grid_cell (keyColor g) 36).
  split; [reflexivity|]. split; [reflexivity|]. split; [reflexivity|].
  split; vm_compute; repeat split.
Qed.

(** X20: drawKeypad and drawModeButtons work on different arrays: the
    registry is the same in whichever order they are called. *)
Theorem keypad_and_mode_buttons_commute g :
  length (key g) = 64%nat ->
  length (modeButton g) = 2%nat ->
  fst (drawModeButtons (fst (drawKeypad g)))
  = fst (drawKeypad (fst (drawModeButtons g))).
Proof.
  intros Hk Hm.
  destruct (two_buttons _ Hm) as (m0 & m1 & Hmb).
  assert (Hmb' : modeButton (fst (drawKeypad g)) = [m0; m1]).
  { rewrite (drawKeypad_result g Hk). exact Hmb. }
  assert (Hk' : length (key (fst (drawModeButtons g))) = 64%nat).
  { rewrite (drawModeButtons_result g m0 m1 Hmb). exact Hk. }
  rewrite (drawModeButtons_result _ m0 m1 Hmb'), (drawKeypad_result _ Hk').
  rewrite (drawKeypad_result g Hk), (drawModeButtons_result g m0 m1 Hmb).
  reflexivity.
Qed.
End ModeButtons.

(** ** Concrete runs for the further properties *)

Ltac by_computation :=
  vm_compute; repeat split; try reflexivity; try (intros; discriminate).

Lemma record_bytes_survive_decoding_witness :
  length sample_record = 16%nat /\
  bytes_of_words (words_of_bytes sample_record) = sample_record.
Proof.
  assert (H1 : length sample_record = 16%nat) by reflexivity.
  split; [exact H1|].
  exact (proj1 (record_bytes_survive_decoding sample_record H1)).
Defined.

Lemma coefficients_survive_encoding_witness :
  length sample_coefficients = 8%nat /\
  Forall (fun c => 0 <= c < 65536) sample_coefficients /\
  words_of_bytes (bytes_of_words sample_coefficients) = sample_coefficients.
Proof.
  assert (H1 : length sample_coefficients = 8%nat) by reflexivity.
  assert (H2 : Forall (fun c => 0 <= c < 65536) sample_coefficients)
    by (repeat constructor; lia).
  split; [exact H1|]. split; [exact H2|].
  exact (proj1 (coefficients_survive_encoding sample_coefficients H1 H2)).
Defined.

Lemma acquired_record_survives_reboot_witness :
  (false = true \/ stored_record sample_env blank_world = None) /\
  open_w_ok sample_env = true /\
  (16 <= write_avail sample_env)%nat /\
  open_r_ok sample_env = true /\
  (16 <= read_avail sample_env)%nat /\
  applied
    (trace (@touch_calibrate_LovyanGFX sample_colors false sample_env
              (world (@touch_calibrate_LovyanGFX sample_colors false
                        sample_env blank_world))))
  = acquired
      (trace (@touch_calibrate_LovyanGFX sample_colors false sample_env
                blank_world)).
Proof.
  assert (H1 : stored_record sample_env blank_world = None)
    by (vm_compute; reflexivity).
  assert (H2 : open_w_ok sample_env = true) by reflexivity.
  assert (H2' : (16 <= write_avail sample_env)%nat) by (simpl; lia).
  assert (H3 : open_r_ok sample_env = true) by reflexivity.
  assert (H4 : (16 <= read_avail sample_env)%nat) by (simpl; lia).
  split; [right; exact H1|]. split; [exact H2|]. split; [exact H2'|].
  split; [exact H3|]. split; [exact H4|].
  exact (proj1 (@acquired_record_survives_reboot sample_colors false
                  sample_env sample_env blank_world (or_intror H1)
                  H2 H2' H3 H4)).
Defined.

Lemma failed_persist_reacquires_next_boot_witness :
  ((false = true /\ remove_ok (with_open_w sample_env false) = true) \/
   short_on_flash blank_world) /\
  open_w_ok (with_open_w sample_env false) = false /\
  short_on_flash
    (world (@touch_calibrate_LovyanGFX sample_colors false
              (with_open_w sample_env false) blank_world)).
Proof.
  assert (H1 : short_on_flash blank_world) by (vm_compute; exact I).
  assert (H2 : open_w_ok (with_open_w sample_env false) = false) by reflexivity.
  split; [right; exact H1|]. split; [exact H2|].
  exact (proj1 (@failed_persist_reacquires_next_boot sample_colors false
                  (with_open_w sample_env false) sample_env blank_world
                  (or_intror H1) H2)).
Defined.

Lemma stored_run_repeats_witness :
  stored_record sample_env calibrated_world = Some sample_record /\
  @touch_calibrate_LovyanGFX sample_colors false sample_env
    (world (@touch_calibrate_LovyanGFX sample_colors false sample_env
              calibrated_world))
  = @touch_calibrate_LovyanGFX sample_colors false sample_env calibrated_world.
Proof.
  assert (H1 : stored_record sample_env calibrated_world = Some sample_record)
    by (vm_compute; reflexivity).
  split; [exact H1|].
  exact (@stored_run_repeats sample_colors sample_env calibrated_world
           sample_record H1).
Defined.

Lemma other_files_untouched_witness :
  "/settings"%string <> CALIBRATION_FILE /\
  fs (world (@touch_calibrate_LovyanGFX sample_colors true sample_env
               calibrated_world)) !! "/settings"%string
  = fs calibrated_world !! "/settings"%string.
Proof.
  assert (H1 : "/settings"%string <> CALIBRATION_FILE)
    by (vm_compute; discriminate).
  split; [exact H1|].
  exact (@other_files_untouched sample_colors true sample_env calibrated_world
           "/settings"%string H1).
Defined.

Lemma failed_write_leaves_flash_witness :
  open_w_ok (with_open_w sample_env false) = false /\
  fs (world (@touch_calibrate_LovyanGFX sample_colors false
               (with_open_w sample_env false) blank_world))
  = fs blank_world.
Proof.
  assert (H1 : open_w_ok (with_open_w sample_env false) = false) by reflexivity.
  split; [exact H1|].
  exact (@failed_write_leaves_flash sample_colors
           (with_open_w sample_env false) blank_world H1).
Defined.

Lemma fresh_keypad_is_uniform_witness :
  length (keyColor blank_registry) = 64%nat /\
  length (key blank_registry) = 64%nat /\
  key (fst (@drawKeypad sample_colors
              (@initKeyColors sample_colors blank_registry))) !! 0%nat
  = Some sample_fresh_key0 /\
  btn_fill sample_fresh_key0 = @TFT_DARKGREY sample_colors.
Proof.
  assert (H1 : length (keyColor blank_registry) = 64%nat) by reflexivity.
  assert (H2 : length (key blank_registry) = 64%nat) by reflexivity.
  assert (H3 : key (fst (@drawKeypad sample_colors
                           (@initKeyColors sample_colors blank_registry)))
               !! 0%nat = Some sample_fresh_key0) by (vm_compute; reflexivity).
  split; [exact H1|]. split; [exact H2|]. split; [exact H3|].
  exact (proj1 (@fresh_keypad_is_uniform sample_colors blank_registry 0%nat
                  sample_fresh_key0 H1 H2 H3)).
Defined.

Lemma drawKeypad_touches_keys_only_witness :
  length (key blank_registry) = 64%nat /\
  keyColor (fst (@drawKeypad sample_colors blank_registry))
  = keyColor blank_registry.
Proof.
  assert (H1 : length (key blank_registry) = 64%nat) by reflexivity.
  split; [exact H1|].
  exact (proj1 (@drawKeypad_touches_keys_only sample_colors blank_registry H1)).
Defined.

Lemma drawKeypad_twice_witness :
  length (key blank_registry) = 64%nat /\
  @drawKeypad sample_colors (fst (@drawKeypad sample_colors blank_registry))
  = @drawKeypad sample_colors blank_registry.
Proof.
  assert (H1 : length (key blank_registry) = 64%nat) by reflexivity.
  split; [exact H1|].
  exact (@drawKeypad_twice sample_colors blank_registry H1).
Defined.

Lemma keys_fit_key_area_witness :
  length (key blank_registry) = 64%nat /\
  key (fst (@drawKeypad sample_colors blank_registry)) !! 0%nat
  = Some sample_key0 /\
  in_key_area sample_key0.
Proof.
  assert (H1 : length (key blank_registry) = 64%nat) by reflexivity.
  assert (H2 : key (fst (@drawKeypad sample_colors blank_registry)) !! 0%nat
               = Some sample_key0) by (vm_compute; reflexivity).
  split; [exact H1|]. split; [exact H2|].
  exact (proj1 (@keys_fit_key_area sample_colors blank_registry 0%nat
                  sample_key0 H1 H2)).
Defined.

Lemma pixel_on_one_key_witness :
  length (key blank_registry) = 64%nat /\
  key (fst (@drawKeypad sample_colors blank_registry)) !! 0%nat
  = Some sample_key0 /\
  covers sample_key0 10 10 /\
  0%nat = 0%nat.
Proof.
  assert (H1 : length (key blank_registry) = 64%nat) by reflexivity.
  assert (H2 : key (fst (@drawKeypad sample_colors blank_registry)) !! 0%nat
               = Some sample_key0) by (vm_compute; reflexivity).
  assert (H3 : covers sample_key0 10 10) by by_computation.
  split; [exact H1|]. split; [exact H2|]. split; [exact H3|].
  exact (@pixel_on_one_key sample_colors blank_registry 0%nat 0%nat
           sample_key0 sample_key0 10 10 H1 H2 H2 H3 H3).
Defined.

Lemma gap_pixels_on_no_key_witness :
  length (key blank_registry) = 64%nat /\
  key (fst (@drawKeypad sample_colors blank_registry)) !! 0%nat
  = Some sample_key0 /\
  (25 <= (30 - 3) mod 30 \/ 25 <= (10 - 3) mod 30) /\
  ~ covers sample_key0 30 10.
Proof.
  assert (H1 : length (key blank_registry) = 64%nat) by reflexivity.
  assert (H2 : key (fst (@drawKeypad sample_colors blank_registry)) !! 0%nat
               = Some sample_key0) by (vm_compute; reflexivity).
  assert (H3 : 25 <= (30 - 3) mod 30 \/ 25 <= (10 - 3) mod 30)
    by (left; vm_compute; discriminate).
  split; [exact H1|]. split; [exact H2|]. split; [exact H3|].
  exact (@gap_pixels_on_no_key sample_colors blank_registry 0%nat
           sample_key0 30 10 H1 H2 H3).
Defined.

Lemma pixel_resolves_to_key_witness :
  length (key blank_registry) = 64%nat /\
  3 <= 40 < 243 /\ 3 <= 70 < 243 /\
  (40 - 3) mod 30 < 25 /\ (70 - 3) mod 30 < 25 /\
  exists btn,
    key (fst (@drawKeypad sample_colors blank_registry))
      !! Z.to_nat ((70 - 3) / 30 * 8 + (40 - 3) / 30) = Some btn /\
    covers btn 40 70.
Proof.
  assert (H1 : length (key blank_registry) = 64%nat) by reflexivity.
  assert (H2 : 3 <= 40 < 243) by lia.
  assert (H3 : 3 <= 70 < 243) by lia.
  assert (H4 : (40 - 3) mod 30 < 25) by reflexivity.
  assert (H5 : (70 - 3) mod 30 < 25) by reflexivity.
  split; [exact H1|]. split; [exact H2|]. split; [exact H3|].
  split; [exact H4|]. split; [exact H5|].
  exact (@pixel_resolves_to_key sample_colors blank_registry 40 70
           H1 H2 H3 H4 H5).
Defined.

Lemma mode_buttons_on_screen_witness :
  length (modeButton blank_registry) = 2%nat /\
  modeButton (fst (@drawModeButtons sample_colors blank_registry)) !! 0%nat
  = Some sample_mode0 /\
  0 <= btn_left sample_mode0.
Proof.
  assert (H1 : length (modeButton blank_registry) = 2%nat) by reflexivity.
  assert (H2 : modeButton (fst (@drawModeButtons sample_colors blank_registry))
               !! 0%nat = Some sample_mode0) by (vm_compute; reflexivity).
  split; [exact H1|]. split; [exact H2|].
  exact (proj1 (@mode_buttons_on_screen sample_colors blank_registry
                  sample_mode0 0%nat H1 H2)).
Defined.

Lemma mode_buttons_overlap_keys_witness :
  length (key blank_registry) = 64%nat /\
  length (modeButton blank_registry) = 2%nat /\
  exists m0 m1 k32 k36,
    modeButton (fst (@drawModeButtons sample_colors
                       (fst (@drawKeypad sample_colors blank_registry))))
    = [m0; m1] /\
    key (fst (@drawModeButtons sample_colors
                (fst (@drawKeypad sample_colors blank_registry)))) !! 32%nat
    = Some k32 /\
    key (fst (@drawModeButtons sample_colors
                (fst (@drawKeypad sample_colors blank_registry)))) !! 36%nat
    = Some k36 /\
    overlap m0 k32 /\ overlap m1 k36.
Proof.
  assert (H1 : length (key blank_registry) = 64%nat) by reflexivity.
  assert (H2 : length (modeButton blank_registry) = 2%nat) by reflexivity.
  split; [exact H1|]. split; [exact H2|].
  exact (@mode_buttons_overlap_keys sample_colors blank_registry H1 H2).
Defined.

Lemma keypad_and_mode_buttons_commute_witness :
  length (key blank_registry) = 64%nat /\
  length (modeButton blank_registry) = 2%nat /\
  fst (@drawModeButtons sample_colors
         (fst (@drawKeypad sample_colors blank_registry)))
  = fst (@drawKeypad sample_colors
           (fst (@drawModeButtons sample_colors blank_registry))).
Proof.
  assert (H1 : length (key blank_registry) = 64%nat) by reflexivity.
  assert (H2 : length (modeButton blank_registry) = 2%nat) by reflexivity.
  split; [exact H1|]. split; [exact H2|].
  exact (@keypad_and_mode_buttons_commute sample_colors blank_registry H1 H2).
Defined.

Lemma short_write_reacquires_next_boot_witness :
  (false = true \/ stored_record (with_write_avail sample_env 10) blank_world
                  = None) /\
  open_w_ok (with_write_avail sample_env 10) = true /\
  (write_avail (with_write_avail sample_env 10) < 16)%nat /\
  written
    (trace (@touch_calibrate_LovyanGFX sample_colors false
              (with_write_avail sample_env 10) blank_world))
  = [value (@touch_calibrate_LovyanGFX sample_colors false
              (with_write_avail sample_env 10) blank_world)].
Proof.
  assert (H1 : stored_record (with_write_avail sample_env 10) blank_world = None)
    by (vm_compute; reflexivity).
  assert (H2 : open_w_ok (with_write_avail sample_env 10) = true) by reflexivity.
  assert (H3 : (write_avail (with_write_avail sample_env 10) < 16)%nat)
    by (simpl; lia).
  split; [right; exact H1|]. split; [exact H2|]. split; [exact H3|].
  exact (proj1 (@short_write_reacquires_next_boot sample_colors false
                  (with_write_avail sample_env 10) sample_env blank_world
                  (or_intror H1) H2 H3)).
Defined.

Lemma failed_remove_keeps_old_record_witness :
  remove_ok (with_remove_ok (with_open_w sample_env false) false) = false /\
  open_w_ok (with_remove_ok (with_open_w sample_env false) false) = false /\
  stored_record sample_env calibrated_world = Some sample_record /\
  fs (world (@touch_calibrate_LovyanGFX sample_colors true
               (with_remove_ok (with_open_w sample_env false) false)
               calibrated_world))
  = fs calibrated_world.
Proof.
  assert (H1 : remove_ok (with_remove_ok (with_open_w sample_env false) false)
               = false) by reflexivity.
  assert (H2 : open_w_ok (with_remove_ok (with_open_w sample_env false) false)
               = false) by reflexivity.
  assert (H3 : stored_record sample_env calibrated_world = Some sample_record)
    by (vm_compute; reflexivity).
  split; [exact H1|]. split; [exact H2|]. split; [exact H3|].
  exact (proj1 (@failed_remove_keeps_old_record sample_colors
                  (with_remove_ok (with_open_w sample_env false) false)
                  sample_env calibrated_world sample_record H1 H2 H3)).
Defined.
